(** * Geom3D: the training adapter and the model factory

    A shallow embedding of [src/geom3d/pl_model.py] and
    [src/geom3d/train_models.py].

    The two files are glue around collaborators that are not among the
    sources: the model classes of [geom3d.models], the data loading of
    [geom3d.dataloader], [torch], [lightning] and [wandb].  Python values,
    dictionaries, exceptions and the order of evaluation are modelled as the
    interpreter has them; tensors carry a shape and entries that are
    rationals or NaN; what a
    collaborator does is a field of the record [Externals].  The general
    statements below hold for every such record; the examples run the code
    with the concrete record [Sim.ext]. *)

From Stdlib Require Import ZArith QArith String PrimFloat.
From stdpp Require Import base gmap strings list.

Set Warnings "-register-all,-inexact-float".
Set Default Proof Using "Type".

Open Scope string_scope.
Open Scope list_scope.

(** ** Python values

    A configuration is what [read_config] loads from a JSON file, and
    [main] stores a [torch.device] in it under ["device"]. *)
Inductive value : Type :=
  | VNone
  | VBool (b : bool)
  | VInt (z : Z)
  | VFloat (f : float)
  | VStr (s : string)
  | VList (l : list value)
  | VDict (d : gmap string value)
  | VDevice (kind : string).

(** A [dict] with string keys. *)
Abbreviation dict := (gmap string value).

(** ** Exceptions *)
Inductive exn : Type :=
  | KeyError (key : string)
  | ValueError (msg : string)
  | TypeError (msg : string)
  | IndexError (msg : string)
  | RuntimeError (msg : string).

Inductive result (A : Type) : Type :=
  | Ok (a : A)
  | Raise (e : exn).
Arguments Ok {A} a.
Arguments Raise {A} e.

Definition returns {A} (r : result A) : Prop := exists a, r = Ok a.
Definition raises {A} (r : result A) : Prop := exists e, r = Raise e.

Module py.

(** [d[k]] on a dictionary. *)
Definition dict_getitem (d : dict) (k : string) : result value :=
  match d !! k with
  | Some v => Ok v
  | None => Raise (KeyError k)
  end.

(** [v[k]] with a string [k] on any value: only a dictionary can be
    indexed by a string. *)
Definition getitem (v : value) (k : string) : result value :=
  match v with
  | VDict d => dict_getitem d k
  | VStr _ => Raise (TypeError "string indices must be integers")
  | VList _ => Raise (TypeError "list indices must be integers or slices, not str")
  | _ => Raise (TypeError "object is not subscriptable")
  end.

(** [v == s] for a string literal [s]: a value that is not a string is
    different from every string, and the comparison does not raise. *)
Definition eq_str (v : value) (s : string) : bool :=
  match v with
  | VStr s' => String.eqb s' s
  | _ => false
  end.

(** Truth value of [v] in a condition. *)
Definition truthy (v : value) : bool :=
  match v with
  | VNone => false
  | VBool b => b
  | VInt z => negb (z =? 0)%Z
  | VFloat f => negb (PrimFloat.eqb f 0%float)
  | VStr s => negb (String.eqb s "")
  | VList l => match l with [] => false | _ => true end
  | VDict d => negb (bool_decide (d = ∅))
  | VDevice _ => true
  end.

End py.

(** ** Effects

    A call may read and change the state of the world outside the program
    (the random generators of [torch], the file system, the experiment
    tracker) and may raise.  What was changed before an exception stays
    changed. *)
Section Monad.
Context {World : Type}.

Definition M (A : Type) : Type := World -> result A * World.

Definition ret {A} (a : A) : M A := fun w => (Ok a, w).

Definition raise {A} (e : exn) : M A := fun w => (Raise e, w).

Definition bind {A B} (m : M A) (k : A -> M B) : M B :=
  fun w =>
    match m w with
    | (Ok a, w') => k a w'
    | (Raise e, w') => (Raise e, w')
    end.

(** A computation without effect on the world. *)
Definition lift {A} (r : result A) : M A := fun w => (r, w).

End Monad.
Arguments M World A : clear implicits.

(** [let* x := m in k]: run [m], and [k] on what it returns. *)
Notation "'let*' x := m 'in' k" := (bind m (fun x => k))
  (at level 10, x pattern, m at level 100, k at level 200).

(** ** Tensors

    A tensor has a shape and its entries in row-major order.  An entry is
    a rational, the arithmetic of [torch] on numbers being taken exact, or
    NaN, which an operation without a value yields (the mean of no entry)
    and which every operation passes on.  Element types are not
    modelled. *)
Module torch.

Inductive number : Type :=
  | Finite (q : Q)
  | NaN.
#[global] Coercion Finite : Q >-> number.

Record tensor : Type := Tensor { shape : list nat; data : list number }.

(** The tensor of shape [s] with the rational entries [l]. *)
Definition tensor_of (s : list nat) (l : list Q) : tensor :=
  Tensor s (map Finite l).


(** Number of entries of a tensor of shape [s]. *)
Definition numel (s : list nat) : nat := foldr Nat.mul 1%nat s.

Definition well_formed (t : tensor) : Prop :=
  length (data t) = numel (shape t).

(** A 0-dimensional tensor. *)
Definition scalar (v : number) : tensor := Tensor [] [v].

(** [Tensor.unsqueeze(dim)]: a dimension of size one is inserted at
    [dim], which ranges over [-(n+1) .. n] for a tensor of [n]
    dimensions. *)
Definition unsqueeze (t : tensor) (dim : Z) : result tensor :=
  let n := Z.of_nat (length (shape t)) in
  if ((- (n + 1) <=? dim) && (dim <=? n))%Z then
    let d := Z.to_nat (if (dim <? 0)%Z then dim + n + 1 else dim)%Z in
    Ok (Tensor (take d (shape t) ++ 1%nat :: drop d (shape t)) (data t))
  else Raise (IndexError "Dimension out of range").

(** [Tensor.squeeze()]: every dimension of size one is removed. *)
Definition squeeze (t : tensor) : tensor :=
  Tensor (filter (fun d => d <> 1%nat) (shape t)) (data t).

(** Broadcasting aligns two shapes at their last dimension; two sizes
    are compatible when they are equal or one of them is one. *)
Fixpoint broadcast_rev (a b : list nat) : option (list nat) :=
  match a, b with
  | [], _ => Some b
  | _, [] => Some a
  | x :: a', y :: b' =>
      match broadcast_rev a' b' with
      | None => None
      | Some r =>
          if (x =? y)%nat then Some (x :: r)
          else if (x =? 1)%nat then Some (y :: r)
          else if (y =? 1)%nat then Some (x :: r)
          else None
      end
  end.

Definition broadcast_shapes (a b : list nat) : option (list nat) :=
  match broadcast_rev (rev a) (rev b) with
  | Some r => Some (rev r)
  | None => None
  end.

(** [k] consecutive blocks of [n] entries. *)
Fixpoint chunks (k n : nat) (d : list number) : list (list number) :=
  match k with
  | O => []
  | S k' => take n d :: chunks k' n (drop n d)
  end.

(** Entries of a tensor of shape [s] expanded to shape [t], both of the
    same number of dimensions: a dimension of size one is repeated. *)
Fixpoint expand_data (s t : list nat) (d : list number) : list number :=
  match s, t with
  | ds :: s', dt :: t' =>
      if (ds =? dt)%nat
      then concat (map (expand_data s' t') (chunks ds (numel s') d))
      else concat (replicate dt (expand_data s' t' d))
  | _, _ => d
  end.

Definition expand (t : tensor) (target : list nat) : tensor :=
  let s := replicate (length target - length (shape t)) 1%nat ++ shape t in
  Tensor target (expand_data s target (data t)).

Definition add (a b : number) : number :=
  match a, b with
  | Finite x, Finite y => Finite (x + y)
  | _, _ => NaN
  end.

Definition sum (l : list number) : number := foldr add (Finite 0) l.

(** The mean of the entries: NaN when there is none, as the division of
    zero by zero. *)
Definition mean (l : list number) : number :=
  match l with
  | [] => NaN
  | _ :: _ =>
      match sum l with
      | Finite total => Finite (total / inject_Z (Z.of_nat (length l)))
      | NaN => NaN
      end
  end.

(** A number that is not negative; NaN, or such a number. *)
Definition nonnegative (v : number) : Prop :=
  exists q, v = Finite q /\ (0 <= q)%Q.

Definition nan_or_nonnegative (v : number) : Prop :=
  v = NaN \/ nonnegative v.

Definition squared_error (p y : number) : number :=
  match p, y with
  | Finite a, Finite b => Finite ((a - b) * (a - b))
  | _, _ => NaN
  end.

(** [torch.nn.functional.mse_loss(input, target)] with its default
    reduction: both tensors are broadcast to a common shape (a mismatch
    of shapes that broadcast is a warning only), and the result is the
    mean of the squared differences, a 0-dimensional tensor. *)
Definition mse_loss (input target : tensor) : result tensor :=
  match broadcast_shapes (shape input) (shape target) with
  | None =>
      Raise (RuntimeError "The size of tensor a must match the size of tensor b")
  | Some s =>
      Ok (scalar (mean (zip_with squared_error
                          (data (expand input s)) (data (expand target s)))))
  end.

End torch.
Export torch (tensor).
Export (coercions) torch.

(** A batch of molecular graphs: node features, 3D coordinates, the graph
    each node belongs to, and the targets. *)
Module Batch.
Record t : Type := {
  x : tensor;
  positions : tensor;
  batch : tensor;
  y : tensor
}.
End Batch.

(** ** Objects of the collaborators

    An instance of a class records its class, the arguments it was
    constructed with, and the state its constructor built (parameters and
    buffers), which is opaque here. *)
Inductive ModelClass : Type :=
  | SchNet_class
  | DimeNet_class
  | DimeNetPlusPlus_class
  | GemNet_class
  | SphereNet_class.

Section Objects.
Context {Opaque : Type}.

(** An instance of one of the classes of [geom3d.models]. *)
Record Model : Type := {
  model_class : ModelClass;
  model_kwargs : list (string * value);
  model_state : Opaque
}.

(** An instance of [torch.nn.Linear]. *)
Record Linear : Type := {
  in_features : value;
  out_features : value;
  linear_state : Opaque
}.

(** [Pymodel.__init__] stores its two arguments; the hyperparameters it
    saves leave both out. *)
Record Pymodel : Type := new_Pymodel {
  molecule_3D_repr : Model;
  graph_pred_linear : option Linear
}.

(** An instance of [torch.optim.Adam] over parameters [params]. *)
Record Optimizer : Type := Adam {
  params : list Opaque;
  lr : float
}.

End Objects.
Arguments Model Opaque : clear implicits.
Arguments Linear Opaque : clear implicits.
Arguments Pymodel Opaque : clear implicits.
Arguments Optimizer Opaque : clear implicits.

(** ** The collaborators

    Code that the two source files call and that is not among them.  Each
    is a parameter: it may use and change the world and may raise.  A
    collaborator that is handed the configuration is taken to leave the
    dictionary as it is. *)
Record Externals (World Opaque : Type) : Type := {
  (** [geom3d.models]: the constructor of a class builds the state of the
      instance, and an instance is called on node features, positions and
      the graph index *)
  init_model : ModelClass -> list (string * value) -> M World Opaque;
  call_model : Model Opaque -> tensor -> tensor -> tensor -> M World tensor;
  (** [torch.nn.Linear(in_features, out_features)] and its call *)
  init_linear : value -> value -> M World Opaque;
  call_linear : Linear Opaque -> tensor -> M World tensor;
  (** [batch.size(dim)] and [LightningModule.log(name, value, batch_size)] *)
  batch_size : Batch.t -> Z -> M World Z;
  log : string -> tensor -> Z -> M World unit;
  (** [Pymodel.load_from_checkpoint(path)] *)
  load_from_checkpoint : value -> M World (Pymodel Opaque);
  (** [str(v)], as an f-string formats a value *)
  str : value -> string;
  print : list value -> M World unit;
  time_time : M World float;
  read_config : string -> M World dict;
  np_random_seed : value -> M World unit;
  torch_cuda_manual_seed_all : value -> M World unit;
  torch_cuda_is_available : M World bool;
  load_data : dict -> M World Opaque;
  train_val_split : Opaque -> dict -> M World (Opaque * Opaque);
  load_3d_rpr : Model Opaque -> value -> M World (Model Opaque);
  os_chdir : value -> M World unit;
  os_path_exists : value -> M World bool;
  wandb_login : M World unit;
  wandb_finish : M World unit;
  (** [WandbLogger(log_model, project, name)], and
      [logger.log_hyperparams(config)] *)
  WandbLogger : value -> value -> value -> M World Opaque;
  log_hyperparams : Opaque -> dict -> M World unit;
  (** [ModelCheckpoint(dirpath, filename, monitor, mode)] *)
  ModelCheckpoint : value -> value -> value -> value -> M World Opaque;
  (** [Trainer(logger, max_epochs, val_check_interval, log_every_n_steps,
      callbacks)], and
      [trainer.fit(model, train_dataloaders, val_dataloaders)] *)
  Trainer : Opaque -> value -> value -> value -> list Opaque -> M World Opaque;
  fit : Opaque -> Pymodel Opaque -> Opaque -> Opaque -> M World unit
}.
Arguments init_model {World Opaque} _.
Arguments call_model {World Opaque} _.
Arguments init_linear {World Opaque} _.
Arguments call_linear {World Opaque} _.
Arguments batch_size {World Opaque} _.
Arguments log {World Opaque} _.
Arguments load_from_checkpoint {World Opaque} _.
Arguments str {World Opaque} _.
Arguments print {World Opaque} _.
Arguments time_time {World Opaque} _.
Arguments read_config {World Opaque} _.
Arguments np_random_seed {World Opaque} _.
Arguments torch_cuda_manual_seed_all {World Opaque} _.
Arguments torch_cuda_is_available {World Opaque} _.
Arguments load_data {World Opaque} _.
Arguments train_val_split {World Opaque} _.
Arguments load_3d_rpr {World Opaque} _.
Arguments os_chdir {World Opaque} _.
Arguments os_path_exists {World Opaque} _.
Arguments wandb_login {World Opaque} _.
Arguments wandb_finish {World Opaque} _.
Arguments WandbLogger {World Opaque} _.
Arguments log_hyperparams {World Opaque} _.
Arguments ModelCheckpoint {World Opaque} _.
Arguments Trainer {World Opaque} _.
Arguments fit {World Opaque} _.

(** ** Calls with keyword arguments

    A keyword argument of a constructor call is either read from the
    [model] mapping of the configuration or a literal.  The arguments are
    evaluated from left to right, and the first one that raises ends the
    evaluation. *)
Inductive arg : Type :=
  | FromConfig (key : string)
  | Literal (v : value).

Definition eval_arg (model_config : value) (a : arg) : result value :=
  match a with
  | FromConfig key => py.getitem model_config key
  | Literal v => Ok v
  end.

Fixpoint eval_kwargs (model_config : value) (l : list (string * arg))
  : result (list (string * value)) :=
  match l with
  | [] => Ok []
  | (name, a) :: l' =>
      match eval_arg model_config a with
      | Raise e => Raise e
      | Ok v =>
          match eval_kwargs model_config l' with
          | Raise e => Raise e
          | Ok kw => Ok ((name, v) :: kw)
          end
      end
  end.

Section Constructors.
Context {World Opaque : Type} (E : Externals World Opaque).

(** [Class(name=value, ...)] for a class of [geom3d.models]. *)
Definition instantiate (c : ModelClass) (kwargs : list (string * value))
  : M World (Model Opaque) :=
  let* st := init_model E c kwargs in
  ret {| model_class := c; model_kwargs := kwargs; model_state := st |}.

Definition SchNet := instantiate SchNet_class.
Definition DimeNet := instantiate DimeNet_class.
Definition DimeNetPlusPlus := instantiate DimeNetPlusPlus_class.
Definition GemNet := instantiate GemNet_class.
Definition SphereNet := instantiate SphereNet_class.

(** [torch.nn.Linear(i, o)]. *)
Definition torch_nn_Linear (i o : value) : M World (Linear Opaque) :=
  let* st := init_linear E i o in
  ret {| in_features := i; out_features := o; linear_state := st |}.

(** [model(x, positions, batch)]. *)
Definition call (m : Model Opaque) (x positions batch : tensor)
  : M World tensor :=
  call_model E m x positions batch.

(** [head(z)], where [head] is a linear layer or [None]: calling [None]
    is a [TypeError]. *)
Definition call_head (head : option (Linear Opaque)) (z : tensor)
  : M World tensor :=
  match head with
  | Some l => call_linear E l z
  | None => raise (TypeError "'NoneType' object is not callable")
  end.

(** [module.parameters()] of the adapter: those of the submodules it
    holds, in the order of assignment; [None] is not a submodule. *)
Definition parameters (self : Pymodel Opaque) : list Opaque :=
  model_state (molecule_3D_repr self)
  :: match graph_pred_linear self with
     | Some l => [linear_state l]
     | None => []
     end.

End Constructors.

(** ** [src/geom3d/pl_model.py] *)
Module pl_model.
Section WithExternals.
Context {World Opaque : Type} (E : Externals World Opaque).

(** [Pymodel._get_preds_loss_accuracy(self, batch)] *)
Definition _get_preds_loss_accuracy (self : Pymodel Opaque) (batch : Batch.t)
  : M World tensor :=
  match graph_pred_linear self with
  | Some _ =>
      let* z := call E (molecule_3D_repr self)
                  (Batch.x batch) (Batch.positions batch) (Batch.batch batch) in
      let* z := call_head E (graph_pred_linear self) z in
      let* target := lift (torch.unsqueeze (Batch.y batch) 1) in
      lift (torch.mse_loss z target)
  | None =>
      let* z := call E (molecule_3D_repr self)
                  (Batch.x batch) (Batch.positions batch) (Batch.batch batch) in
      let z := torch.squeeze z in
      lift (torch.mse_loss z (Batch.y batch))
  end.

(** [Pymodel.training_step(self, batch, batch_idx)] *)
Definition training_step (self : Pymodel Opaque) (batch : Batch.t)
  (batch_idx : Z) : M World tensor :=
  let* loss := _get_preds_loss_accuracy self batch in
  let* n := batch_size E batch 0 in
  let* _ := log E "train_loss" loss n in
  ret loss.

(** [Pymodel.validation_step(self, batch, batch_idx)] *)
Definition validation_step (self : Pymodel Opaque) (batch : Batch.t)
  (batch_idx : Z) : M World tensor :=
  let* loss := _get_preds_loss_accuracy self batch in
  let* n := batch_size E batch 0 in
  let* _ := log E "val_loss" loss n in
  ret loss.

(** [Pymodel.configure_optimizers(self)] *)
Definition configure_optimizers (self : Pymodel Opaque) : Optimizer Opaque :=
  let optimizer := Adam (parameters self) 5e-4%float in
  optimizer.

(** [Pymodel.forward(self, batch)] *)
Definition forward (self : Pymodel Opaque) (batch : Batch.t) : M World tensor :=
  let* z := call E (molecule_3D_repr self)
              (Batch.x batch) (Batch.positions batch) (Batch.batch batch) in
  let* z := call_head E (graph_pred_linear self) z in
  ret z.

(** The keyword arguments of the five constructor calls of [model_setup],
    in the order of the source. *)
Definition SchNet_kwargs : list (string * arg) :=
  [ ("hidden_channels", FromConfig "emb_dim");
    ("num_filters", FromConfig "SchNet_num_filters");
    ("num_interactions", FromConfig "SchNet_num_interactions");
    ("num_gaussians", FromConfig "SchNet_num_gaussians");
    ("cutoff", FromConfig "SchNet_cutoff");
    ("readout", FromConfig "SchNet_readout");
    ("node_class", FromConfig "node_class") ].

Definition DimeNet_kwargs : list (string * arg) :=
  [ ("node_class", FromConfig "node_class");
    ("hidden_channels", FromConfig "hidden_channels");
    ("out_channels", FromConfig "out_channels");
    ("num_blocks", FromConfig "num_blocks");
    ("num_bilinear", FromConfig "num_bilinear");
    ("num_spherical", FromConfig "num_spherical");
    ("num_radial", FromConfig "num_radial");
    ("cutoff", FromConfig "cutoff");
    ("envelope_exponent", FromConfig "envelope_exponent");
    ("num_before_skip", FromConfig "num_before_skip");
    ("num_after_skip", FromConfig "num_after_skip");
    ("num_output_layers", FromConfig "num_output_layers") ].

Definition DimeNetPlusPlus_kwargs : list (string * arg) :=
  [ ("node_class", FromConfig "node_class");
    ("hidden_channels", FromConfig "hidden_channels");
    ("out_channels", FromConfig "out_channels");
    ("num_blocks", FromConfig "num_blocks");
    ("int_emb_size", FromConfig "int_emb_size");
    ("basis_emb_size", FromConfig "basis_emb_size");
    ("out_emb_channels", FromConfig "out_emb_channels");
    ("num_spherical", FromConfig "num_spherical");
    ("num_radial", FromConfig "num_radial");
    ("cutoff", FromConfig "cutoff");
    ("envelope_exponent", FromConfig "envelope_exponent");
    ("num_before_skip", FromConfig "num_before_skip");
    ("num_after_skip", FromConfig "num_after_skip");
    ("num_output_layers", FromConfig "num_output_layers") ].

Definition GemNet_kwargs : list (string * arg) :=
  [ ("node_class", FromConfig "node_class");
    ("num_targets", FromConfig "num_targets");
    ("num_blocks", FromConfig "num_blocks");
    ("emb_size_atom", FromConfig "emb_size_atom");
    ("emb_size_edge", FromConfig "emb_size_edge");
    ("emb_size_trip", FromConfig "emb_size_trip");
    ("emb_size_quad", FromConfig "emb_size_quad");
    ("emb_size_rbf", FromConfig "emb_size_rbf");
    ("emb_size_cbf", FromConfig "emb_size_cbf");
    ("emb_size_sbf", FromConfig "emb_size_sbf");
    ("emb_size_bil_quad", FromConfig "emb_size_bil_quad");
    ("emb_size_bil_trip", FromConfig "emb_size_bil_trip");
    ("num_concat", FromConfig "num_concat");
    ("num_atom", FromConfig "num_atom");
    ("triplets_only", FromConfig "triplets_only");
    ("direct_forces", FromConfig "direct_forces");
    ("extensive", FromConfig "extensive");
    ("forces_coupled", FromConfig "forces_coupled");
    ("cutoff", FromConfig "cutoff");
    ("int_cutoff", FromConfig "int_cutoff");
    ("envelope_exponent", FromConfig "envelope_exponent");
    ("num_spherical", FromConfig "num_spherical");
    ("num_radial", FromConfig "num_radial");
    ("num_before_skip", FromConfig "num_before_skip");
    ("num_after_skip", FromConfig "num_after_skip") ].

Definition SphereNet_kwargs : list (string * arg) :=
  [ ("energy_and_force", Literal (VBool false));
    ("hidden_channels", FromConfig "hidden_channels");
    ("out_channels", FromConfig "out_channels");
    ("cutoff", FromConfig "cutoff");
    ("num_layers", FromConfig "num_layers");
    ("int_emb_size", FromConfig "int_emb_size");
    ("basis_emb_size_dist", FromConfig "basis_emb_size_dist");
    ("basis_emb_size_angle", FromConfig "basis_emb_size_angle");
    ("basis_emb_size_torsion", FromConfig "basis_emb_size_torsion");
    ("out_emb_channels", FromConfig "out_emb_channels");
    ("num_spherical", FromConfig "num_spherical");
    ("num_radial", FromConfig "num_radial");
    ("envelope_exponent", FromConfig "envelope_exponent");
    ("num_before_skip", FromConfig "num_before_skip");
    ("num_after_skip", FromConfig "num_after_skip");
    ("num_output_layers", FromConfig "num_output_layers") ].

(** [model_setup(config)] *)
Definition model_setup (config : dict)
  : M World (Model Opaque * option (Linear Opaque)) :=
  let* model_config := lift (py.dict_getitem config "model") in
  let* name := lift (py.dict_getitem config "model_name") in
  if py.eq_str name "SchNet" then
    let* kwargs := lift (eval_kwargs model_config SchNet_kwargs) in
    let* model := SchNet E kwargs in
    let* emb_dim := lift (py.getitem model_config "emb_dim") in
    let* num_tasks := lift (py.getitem model_config "num_tasks") in
    let* graph_pred_linear := torch_nn_Linear E emb_dim num_tasks in
    ret (model, Some graph_pred_linear)
  else
  let* name := lift (py.dict_getitem config "model_name") in
  if py.eq_str name "DimeNet" then
    let* kwargs := lift (eval_kwargs model_config DimeNet_kwargs) in
    let* model := DimeNet E kwargs in
    ret (model, None)
  else
  let* name := lift (py.dict_getitem config "model_name") in
  if py.eq_str name "DimeNetPlusPlus" then
    let* kwargs := lift (eval_kwargs model_config DimeNetPlusPlus_kwargs) in
    let* model := DimeNetPlusPlus E kwargs in
    ret (model, None)
  else
  let* name := lift (py.dict_getitem config "model_name") in
  if py.eq_str name "GemNet" then
    let* kwargs := lift (eval_kwargs model_config GemNet_kwargs) in
    let* model := GemNet E kwargs in
    ret (model, None)
  else
  let* name := lift (py.dict_getitem config "model_name") in
  if py.eq_str name "SphereNet" then
    let* kwargs := lift (eval_kwargs model_config SphereNet_kwargs) in
    let* model := SphereNet E kwargs in
    ret (model, None)
  else
    raise (ValueError "Invalid model name").

End WithExternals.
End pl_model.

(** ** [src/geom3d/train_models.py] *)
Module train_models.
Section WithExternals.
Context {World Opaque : Type} (E : Externals World Opaque).

(** The keyword arguments of the five constructor calls of [model_setup],
    in the order of the source. *)
Definition SchNet_kwargs : list (string * arg) :=
  [ ("hidden_channels", FromConfig "emb_dim");
    ("num_filters", FromConfig "SchNet_num_filters");
    ("num_interactions", FromConfig "SchNet_num_interactions");
    ("num_gaussians", FromConfig "SchNet_num_gaussians");
    ("cutoff", FromConfig "SchNet_cutoff");
    ("readout", FromConfig "SchNet_readout");
    ("node_class", FromConfig "node_class") ].

Definition DimeNet_kwargs : list (string * arg) :=
  [ ("node_class", FromConfig "node_class");
    ("hidden_channels", FromConfig "hidden_channels");
    ("out_channels", FromConfig "out_channels");
    ("num_blocks", FromConfig "num_blocks");
    ("num_bilinear", FromConfig "num_bilinear");
    ("num_spherical", FromConfig "num_spherical");
    ("num_radial", FromConfig "num_radial");
    ("cutoff", FromConfig "cutoff");
    ("envelope_exponent", FromConfig "envelope_exponent");
    ("num_before_skip", FromConfig "num_before_skip");
    ("num_after_skip", FromConfig "num_after_skip");
    ("num_output_layers", FromConfig "num_output_layers") ].

Definition DimeNetPlusPlus_kwargs : list (string * arg) :=
  [ ("node_class", FromConfig "node_class");
    ("hidden_channels", FromConfig "hidden_channels");
    ("out_channels", FromConfig "out_channels");
    ("num_blocks", FromConfig "num_blocks");
    ("int_emb_size", FromConfig "int_emb_size");
    ("basis_emb_size", FromConfig "basis_emb_size");
    ("out_emb_channels", FromConfig "out_emb_channels");
    ("num_spherical", FromConfig "num_spherical");
    ("num_radial", FromConfig "num_radial");
    ("cutoff", FromConfig "cutoff");
    ("envelope_exponent", FromConfig "envelope_exponent");
    ("num_before_skip", FromConfig "num_before_skip");
    ("num_after_skip", FromConfig "num_after_skip");
    ("num_output_layers", FromConfig "num_output_layers") ].

Definition GemNet_kwargs : list (string * arg) :=
  [ ("node_class", FromConfig "node_class");
    ("num_targets", FromConfig "num_targets");
    ("num_blocks", FromConfig "num_blocks");
    ("emb_size_atom", FromConfig "emb_size_atom");
    ("emb_size_edge", FromConfig "emb_size_edge");
    ("emb_size_trip", FromConfig "emb_size_trip");
    ("emb_size_quad", FromConfig "emb_size_quad");
    ("emb_size_rbf", FromConfig "emb_size_rbf");
    ("emb_size_cbf", FromConfig "emb_size_cbf");
    ("emb_size_sbf", FromConfig "emb_size_sbf");
    ("emb_size_bil_quad", FromConfig "emb_size_bil_quad");
    ("emb_size_bil_trip", FromConfig "emb_size_bil_trip");
    ("num_concat", FromConfig "num_concat");
    ("num_atom", FromConfig "num_atom");
    ("triplets_only", FromConfig "triplets_only");
    ("direct_forces", FromConfig "direct_forces");
    ("extensive", FromConfig "extensive");
    ("forces_coupled", FromConfig "forces_coupled");
    ("cutoff", FromConfig "cutoff");
    ("int_cutoff", FromConfig "int_cutoff");
    ("envelope_exponent", FromConfig "envelope_exponent");
    ("num_spherical", FromConfig "num_spherical");
    ("num_radial", FromConfig "num_radial");
    ("num_before_skip", FromConfig "num_before_skip");
    ("num_after_skip", FromConfig "num_after_skip") ].

Definition SphereNet_kwargs : list (string * arg) :=
  [ ("energy_and_force", Literal (VBool false));
    ("hidden_channels", FromConfig "hidden_channels");
    ("out_channels", FromConfig "out_channels");
    ("cutoff", FromConfig "cutoff");
    ("num_layers", FromConfig "num_layers");
    ("int_emb_size", FromConfig "int_emb_size");
    ("basis_emb_size_dist", FromConfig "basis_emb_size_dist");
    ("basis_emb_size_angle", FromConfig "basis_emb_size_angle");
    ("basis_emb_size_torsion", FromConfig "basis_emb_size_torsion");
    ("out_emb_channels", FromConfig "out_emb_channels");
    ("num_spherical", FromConfig "num_spherical");
    ("num_radial", FromConfig "num_radial");
    ("envelope_exponent", FromConfig "envelope_exponent");
    ("num_before_skip", FromConfig "num_before_skip");
    ("num_after_skip", FromConfig "num_after_skip");
    ("num_output_layers", FromConfig "num_output_layers") ].

(** [model_setup(config)] *)
Definition model_setup (config : dict)
  : M World (Model Opaque * option (Linear Opaque)) :=
  let* model_config := lift (py.dict_getitem config "model") in
  let* name := lift (py.dict_getitem config "model_name") in
  if py.eq_str name "SchNet" then
    let* kwargs := lift (eval_kwargs model_config SchNet_kwargs) in
    let* model := SchNet E kwargs in
    let* emb_dim := lift (py.getitem model_config "emb_dim") in
    let* num_tasks := lift (py.getitem model_config "num_tasks") in
    let* graph_pred_linear := torch_nn_Linear E emb_dim num_tasks in
    ret (model, Some graph_pred_linear)
  else
  let* name := lift (py.dict_getitem config "model_name") in
  if py.eq_str name "DimeNet" then
    let* kwargs := lift (eval_kwargs model_config DimeNet_kwargs) in
    let* model := DimeNet E kwargs in
    ret (model, None)
  else
  let* name := lift (py.dict_getitem config "model_name") in
  if py.eq_str name "DimeNetPlusPlus" then
    let* kwargs := lift (eval_kwargs model_config DimeNetPlusPlus_kwargs) in
    let* model := DimeNetPlusPlus E kwargs in
    ret (model, None)
  else
  let* name := lift (py.dict_getitem config "model_name") in
  if py.eq_str name "GemNet" then
    let* kwargs := lift (eval_kwargs model_config GemNet_kwargs) in
    let* model := GemNet E kwargs in
    ret (model, None)
  else
  let* name := lift (py.dict_getitem config "model_name") in
  if py.eq_str name "SphereNet" then
    let* kwargs := lift (eval_kwargs model_config SphereNet_kwargs) in
    let* model := SphereNet E kwargs in
    ret (model, None)
  else
    raise (ValueError "Invalid model name").


(** [main(config_dir)], from its first statement to [wandb.login()]:
    the configuration is read, the data is loaded and split, and the
    factory is run. *)
Definition main_setup (config_dir : string)
  : M World (float * dict * (Opaque * Opaque)
             * (Model Opaque * option (Linear Opaque))) :=
  let* start_time := time_time E in
  let* config := read_config E config_dir in
  let* seed := lift (py.dict_getitem config "seed") in
  let* _ := np_random_seed E seed in
  let* seed := lift (py.dict_getitem config "seed") in
  let* _ := torch_cuda_manual_seed_all E seed in
  let* available := torch_cuda_is_available E in
  let config :=
    <[ "device" := if available then VStr "cuda" else VDevice "cpu" ]> config in
  let* dataset := load_data E config in
  let* (train_loader, val_loader) := train_val_split E dataset config in
  let* (model, graph_pred_linear) := model_setup config in
  let* name := lift (py.dict_getitem config "model_name") in
  let* _ := print E [VStr "Model loaded: "; name] in
  let* model_path := lift (py.dict_getitem config "model_path") in
  let* model :=
    if py.truthy model_path then
      let* model_path := lift (py.dict_getitem config "model_path") in
      load_3d_rpr E model model_path
    else ret model in
  let* running_dir := lift (py.dict_getitem config "running_dir") in
  let* _ := os_chdir E running_dir in
  let* _ := wandb_login E in
  ret (start_time, config, (train_loader, val_loader),
       (model, graph_pred_linear)).

(** [main], the choice of the adapter:
    [if os.path.exists(config["pl_model_chkpt"]): ... else: ...] *)
Definition main_adapter (config : dict) (model : Model Opaque)
  (graph_pred_linear : option (Linear Opaque)) : M World (Pymodel Opaque) :=
  let* path := lift (py.dict_getitem config "pl_model_chkpt") in
  let* found := os_path_exists E path in
  if found then
    let* path := lift (py.dict_getitem config "pl_model_chkpt") in
    load_from_checkpoint E path
  else
    ret (new_Pymodel model graph_pred_linear).

(** [main], from the logger to the end: the adapter is handed to the
    trainer. *)
Definition main_train (start_time : float) (config : dict)
  (train_loader val_loader : Opaque) (pymodel_SCHNET : Pymodel Opaque)
  : M World unit :=
  let* model_name := lift (py.dict_getitem config "model_name") in
  let* target_name := lift (py.dict_getitem config "target_name") in
  let project :=
    VStr (String.append "Geom3D_"
            (String.append (str E model_name)
               (String.append "_" (str E target_name)))) in
  let* name := lift (py.dict_getitem config "name") in
  let* wandb_logger := WandbLogger E (VStr "all") project name in
  let* _ := log_hyperparams E wandb_logger config in
  let* dirpath := lift (py.dict_getitem config "name") in
  let* checkpoint_callback :=
    ModelCheckpoint E dirpath
      (VStr "{epoch}-{val_loss:.2f}-{other_metric:.2f}")
      (VStr "val_loss") (VStr "min") in
  let* max_epochs := lift (py.dict_getitem config "max_epochs") in
  let* trainer :=
    Trainer E wandb_logger max_epochs (VFloat 1%float) (VInt 1)
      [checkpoint_callback] in
  let* _ := fit E trainer pymodel_SCHNET train_loader val_loader in
  let* _ := wandb_finish E in
  let* end_time := time_time E in
  let total_time := PrimFloat.sub end_time start_time in
  print E [VStr (String.append "Total time taken for model training: "
                   (String.append (str E (VFloat total_time)) " seconds"))].

(** [main(config_dir)] *)
Definition main (config_dir : string) : M World unit :=
  let* (start_time, config, (train_loader, val_loader),
        (model, graph_pred_linear)) := main_setup config_dir in
  let* pymodel_SCHNET := main_adapter config model graph_pred_linear in
  main_train start_time config train_loader val_loader pymodel_SCHNET.

End WithExternals.
End train_models.

(** ** The specification's words

    Definitions that follow the specification, to be compared with the code
    above. *)

(** The five supported model names and the class each one names. *)
Definition class_of_name (name : string) : option ModelClass :=
  if String.eqb name "SchNet" then Some SchNet_class
  else if String.eqb name "DimeNet" then Some DimeNet_class
  else if String.eqb name "DimeNetPlusPlus" then Some DimeNetPlusPlus_class
  else if String.eqb name "GemNet" then Some GemNet_class
  else if String.eqb name "SphereNet" then Some SphereNet_class
  else None.

Definition supported_names : list string :=
  ["SchNet"; "DimeNet"; "DimeNetPlusPlus"; "GemNet"; "SphereNet"].

(** The keyword arguments with which the factory constructs class [c]. *)
Definition kwargs_of (c : ModelClass) : list (string * arg) :=
  match c with
  | SchNet_class => pl_model.SchNet_kwargs
  | DimeNet_class => pl_model.DimeNet_kwargs
  | DimeNetPlusPlus_class => pl_model.DimeNetPlusPlus_kwargs
  | GemNet_class => pl_model.GemNet_kwargs
  | SphereNet_class => pl_model.SphereNet_kwargs
  end.

(** The keys of the [model] mapping that are read for class [c]: those of
    its keyword arguments and, for the one class with a projection head,
    the two sizes of the head. *)
Definition keys_of (l : list (string * arg)) : list string :=
  flat_map (fun na => match snd na with
                      | FromConfig key => [key]
                      | Literal _ => []
                      end) l.

Definition required_keys (c : ModelClass) : list string :=
  keys_of (kwargs_of c)
  ++ match c with
     | SchNet_class => ["emb_dim"; "num_tasks"]
     | _ => []
     end.

(** The mapping [model_config] supplies every key read for class [c]. *)
Definition supplies (model_config : value) (c : ModelClass) : Prop :=
  exists d, model_config = VDict d /\
    forall key, In key (required_keys c) -> is_Some (d !! key).

Section Specification.
Context {World Opaque : Type} (E : Externals World Opaque).

(** The constructor calls that the factory makes for class [c] on the
    mapping [model_config] in the state [w] return: the constructor of
    the class on the keyword arguments read from the mapping and, for
    SchNet, [torch.nn.Linear] on [emb_dim] and [num_tasks] in the state
    the model constructor left. *)
Definition constructor_calls_return (c : ModelClass) (model_config : value)
  (w : World) : Prop :=
  forall kw, eval_kwargs model_config (kwargs_of c) = Ok kw ->
    exists st w1,
      init_model E c kw w = (Ok st, w1)
      /\ (c = SchNet_class ->
          forall i o,
            py.getitem model_config "emb_dim" = Ok i ->
            py.getitem model_config "num_tasks" = Ok o ->
            exists st' w2, init_linear E i o w1 = (Ok st', w2)).

(** A computation that neither reads nor changes the world. *)
Definition pure {A} (m : M World A) : Prop :=
  exists r, forall w, m w = (r, w).

Definition constructors_pure : Prop :=
  (forall c kw, pure (init_model E c kw))
  /\ (forall i o, pure (init_linear E i o)).

(** The factory as a dispatch on the class that the model name names:
    the model is constructed from the keyword arguments of its class, and
    a linear head is constructed for SchNet only. *)
Definition spec_build (c : ModelClass) (model_config : value)
  : M World (Model Opaque * option (Linear Opaque)) :=
  let* kwargs := lift (eval_kwargs model_config (kwargs_of c)) in
  let* model := instantiate E c kwargs in
  match c with
  | SchNet_class =>
      let* emb_dim := lift (py.getitem model_config "emb_dim") in
      let* num_tasks := lift (py.getitem model_config "num_tasks") in
      let* head := torch_nn_Linear E emb_dim num_tasks in
      ret (model, Some head)
  | _ => ret (model, None)
  end.

Definition spec_model_setup (config : dict)
  : M World (Model Opaque * option (Linear Opaque)) :=
  let* model_config := lift (py.dict_getitem config "model") in
  let* name := lift (py.dict_getitem config "model_name") in
  match name with
  | VStr s =>
      match class_of_name s with
      | Some c => spec_build c model_config
      | None => raise (ValueError "Invalid model name")
      end
  | _ => raise (ValueError "Invalid model name")
  end.

(** The predictions of the adapter: the output of the model, passed
    through the head when there is one and squeezed when there is none. *)
Definition spec_predictions (self : Pymodel Opaque) (batch : Batch.t)
  : M World tensor :=
  let* out := call_model E (molecule_3D_repr self)
                (Batch.x batch) (Batch.positions batch) (Batch.batch batch) in
  match graph_pred_linear self with
  | Some head => call_linear E head out
  | None => ret (torch.squeeze out)
  end.

(** The target the predictions are compared against: [y] with a trailing
    dimension of size one when there is a head, [y] unchanged when there
    is none. *)
Definition spec_target (self : Pymodel Opaque) (batch : Batch.t)
  : result tensor :=
  match graph_pred_linear self with
  | Some _ => torch.unsqueeze (Batch.y batch) 1
  | None => Ok (Batch.y batch)
  end.

(** The loss: the mean-squared error of the predictions against the
    target. *)
Definition spec_loss (self : Pymodel Opaque) (batch : Batch.t)
  : M World tensor :=
  let* predictions := spec_predictions self batch in
  let* target := lift (spec_target self batch) in
  lift (torch.mse_loss predictions target).

End Specification.

(** ** A concrete set of collaborators

    Used to run the code on examples.  The world is the number of draws
    made so far from the random generator of [torch].  With [random] set, a
    constructor draws the state of the instance from the generator, as
    [torch] initialises the weights of a layer; without it, a constructor
    always builds the same state.  A model returns one row per graph and
    [out_channels] columns (one when it is not given); a linear layer
    returns [out_features] columns. *)
Module Sim.

Definition draw (random : bool) : M nat nat :=
  fun w => if random then (Ok w, S w) else (Ok 0%nat, w).

Definition assoc (key : string) (kw : list (string * value)) : option value :=
  match List.find (fun nv => String.eqb (fst nv) key) kw with
  | Some nv => Some (snd nv)
  | None => None
  end.

Definition width (v : option value) : nat :=
  match v with
  | Some (VInt z) => Z.to_nat z
  | _ => 1
  end.

Definition num_graphs (batch : tensor) : nat :=
  foldr (fun v n =>
           match v with
           | torch.Finite q =>
               Nat.max (S (Z.to_nat (Qnum q / Z.pos (Qden q)))) n
           | torch.NaN => n
           end) 0%nat
    (torch.data batch).

Definition constant (rows cols : nat) (q : Q) : tensor :=
  torch.Tensor [rows; cols] (replicate (rows * cols) (torch.Finite q)).

Definition rows (z : tensor) : nat :=
  match torch.shape z with
  | r :: _ => r
  | [] => 1
  end.

Definition demo_adapter : Pymodel nat :=
  new_Pymodel
    {| model_class := SchNet_class; model_kwargs := []; model_state := 0%nat |}
    None.

(** A configuration for SchNet with one task. *)
Definition schnet_model : dict :=
  list_to_map
    [ ("emb_dim", VInt 128); ("SchNet_num_filters", VInt 128);
      ("SchNet_num_interactions", VInt 6); ("SchNet_num_gaussians", VInt 51);
      ("SchNet_cutoff", VInt 10); ("SchNet_readout", VStr "mean");
      ("node_class", VInt 119); ("num_tasks", VInt 1) ].

Definition schnet_config : dict :=
  list_to_map
    [ ("model_name", VStr "SchNet"); ("model", VDict schnet_model);
      ("seed", VInt 42); ("model_path", VStr "");
      ("running_dir", VStr "runs"); ("pl_model_chkpt", VStr "none.ckpt");
      ("name", VStr "demo"); ("target_name", VStr "gap");
      ("max_epochs", VInt 3) ].

(** The same, resuming from a checkpoint that exists. *)
Definition resume_config : dict :=
  <[ "pl_model_chkpt" := VStr "last.ckpt" ]> schnet_config.

(** A configuration for DimeNet with [out] output channels. *)
Definition dimenet_model (out : Z) : dict :=
  list_to_map
    [ ("node_class", VInt 119); ("hidden_channels", VInt 128);
      ("out_channels", VInt out); ("num_blocks", VInt 6);
      ("num_bilinear", VInt 8); ("num_spherical", VInt 7);
      ("num_radial", VInt 6); ("cutoff", VInt 10);
      ("envelope_exponent", VInt 5); ("num_before_skip", VInt 1);
      ("num_after_skip", VInt 2); ("num_output_layers", VInt 3) ].

Definition dimenet_config (out : Z) : dict :=
  list_to_map
    [ ("model_name", VStr "DimeNet"); ("model", VDict (dimenet_model out)) ].

(** A configuration that names SchNet and supplies no hyperparameter. *)
Definition bare_config : dict :=
  list_to_map [ ("model_name", VStr "SchNet"); ("model", VDict ∅) ].

(** A configuration with a model name outside the five. *)
Definition unknown_config : dict :=
  list_to_map [ ("model_name", VStr "PaiNN"); ("model", VDict ∅) ].

Definition ext (random : bool) : Externals nat nat := {|
  init_model := fun _ _ => draw random;
  call_model := fun m _ _ batch =>
    ret (constant (num_graphs batch)
           (width (assoc "out_channels" (model_kwargs m)))
           (inject_Z (Z.of_nat (model_state m))));
  init_linear := fun _ _ => draw random;
  call_linear := fun l z =>
    ret (constant (rows z) (width (Some (out_features l)))
           (inject_Z (Z.of_nat (linear_state l))));
  batch_size := fun b _ => ret (Z.of_nat (rows (Batch.x b)));
  log := fun _ _ _ => ret tt;
  load_from_checkpoint := fun _ => ret demo_adapter;
  str := fun v => match v with VStr s => s | _ => "?" end;
  print := fun _ => ret tt;
  time_time := ret 0%float;
  read_config := fun config_dir =>
    ret (if String.eqb config_dir "resume" then resume_config
         else schnet_config);
  np_random_seed := fun _ => ret tt;
  torch_cuda_manual_seed_all := fun _ => ret tt;
  torch_cuda_is_available := ret false;
  load_data := fun _ => ret 0%nat;
  train_val_split := fun _ _ => ret (0%nat, 0%nat);
  load_3d_rpr := fun m _ => ret m;
  os_chdir := fun _ => ret tt;
  os_path_exists := fun p => ret (py.eq_str p "last.ckpt");
  wandb_login := ret tt;
  wandb_finish := ret tt;
  WandbLogger := fun _ _ _ => ret 0%nat;
  log_hyperparams := fun _ _ => ret tt;
  ModelCheckpoint := fun _ _ _ _ => ret 0%nat;
  Trainer := fun _ _ _ _ _ => ret 0%nat;
  fit := fun _ _ _ _ => ret tt
|}.

(** The adapter that the driver constructs afresh from [config]. *)
Definition adapter_of (config : dict) : Pymodel nat :=
  match fst (pl_model.model_setup (ext true) config 0%nat) with
  | Ok (model, graph_pred_linear) => new_Pymodel model graph_pred_linear
  | Raise _ => demo_adapter
  end.

(** Three nodes in two graphs, with one target per graph. *)
Definition two_graphs : Batch.t := {|
  Batch.x := torch.tensor_of [3; 1]%nat [6; 1; 8]%Q;
  Batch.positions := torch.tensor_of [3; 3]%nat [0; 0; 0; 1; 0; 0; 0; 1; 0]%Q;
  Batch.batch := torch.tensor_of [3]%nat [0; 0; 1]%Q;
  Batch.y := torch.tensor_of [2]%nat [1; 2]%Q
|}.

End Sim.


(** ** Further scenarios

    Variations of the concrete collaborators and of the example inputs. *)
Module Scenario.

(** [E] with [read_config] and the model constructors replaced. *)
Definition override (E : Externals nat nat)
  (read : string -> M nat dict)
  (init : ModelClass -> list (string * value) -> M nat nat)
  : Externals nat nat := {|
  init_model := init;
  call_model := call_model E;
  init_linear := init_linear E;
  call_linear := call_linear E;
  batch_size := batch_size E;
  log := log E;
  load_from_checkpoint := load_from_checkpoint E;
  str := str E;
  print := print E;
  time_time := time_time E;
  read_config := read;
  np_random_seed := np_random_seed E;
  torch_cuda_manual_seed_all := torch_cuda_manual_seed_all E;
  torch_cuda_is_available := torch_cuda_is_available E;
  load_data := load_data E;
  train_val_split := train_val_split E;
  load_3d_rpr := load_3d_rpr E;
  os_chdir := os_chdir E;
  os_path_exists := os_path_exists E;
  wandb_login := wandb_login E;
  wandb_finish := wandb_finish E;
  WandbLogger := WandbLogger E;
  log_hyperparams := log_hyperparams E;
  ModelCheckpoint := ModelCheckpoint E;
  Trainer := Trainer E;
  fit := fit E
|}.

(** The collaborators of [Sim] reading [config] from every directory. *)
Definition reading (config : dict) : Externals nat nat :=
  override (Sim.ext true) (fun _ => ret config) (init_model (Sim.ext true)).

(** The collaborators of [Sim] with model constructors that draw from the
    generator and then reject their arguments. *)
Definition rejecting (e : exn) : Externals nat nat :=
  override (Sim.ext true) (read_config (Sim.ext true))
    (fun _ _ => let* _ := Sim.draw true in raise e).

(** The SchNet configuration without the number of tasks. *)
Definition no_tasks_config : dict :=
  <[ "model" := VDict (delete "num_tasks" Sim.schnet_model) ]> Sim.schnet_config.

(** The SchNet configuration with hyperparameters of other models added. *)
Definition crowded_config : dict :=
  <[ "model" := VDict (<[ "hidden_channels" := VInt 64 ]>
                         (<[ "cutoff" := VInt 5 ]> Sim.schnet_model)) ]>
    Sim.schnet_config.

(** A SphereNet configuration whose mapping asks for energy and force. *)
Definition spherenet_model : dict :=
  list_to_map
    [ ("energy_and_force", VBool true); ("hidden_channels", VInt 128);
      ("out_channels", VInt 1); ("cutoff", VInt 5); ("num_layers", VInt 4);
      ("int_emb_size", VInt 64); ("basis_emb_size_dist", VInt 8);
      ("basis_emb_size_angle", VInt 8); ("basis_emb_size_torsion", VInt 8);
      ("out_emb_channels", VInt 256); ("num_spherical", VInt 3);
      ("num_radial", VInt 6); ("envelope_exponent", VInt 5);
      ("num_before_skip", VInt 1); ("num_after_skip", VInt 2);
      ("num_output_layers", VInt 3) ].

Definition spherenet_config : dict :=
  list_to_map
    [ ("model_name", VStr "SphereNet"); ("model", VDict spherenet_model) ].

(** Driver configurations: an unsupported model name, and no seed. *)
Definition unknown_driver_config : dict :=
  <[ "model_name" := VStr "PaiNN" ]> Sim.schnet_config.

Definition no_seed_config : dict := delete "seed" Sim.schnet_config.

(** A configuration whose [model] entry is a string. *)
Definition flat_config : dict :=
  list_to_map [ ("model_name", VStr "GemNet"); ("model", VStr "gemnet.json") ].

(** Configurations without a model name, and with a number for one. *)
Definition nameless_config : dict :=
  list_to_map [ ("model", VDict Sim.schnet_model) ].

Definition numbered_config : dict :=
  list_to_map [ ("model_name", VInt 3); ("model", VDict Sim.schnet_model) ].

(** One graph of two nodes, with one target. *)
Definition one_graph : Batch.t := {|
  Batch.x := torch.tensor_of [2; 1]%nat [6; 8]%Q;
  Batch.positions := torch.tensor_of [2; 3]%nat [0; 0; 0; 1; 0; 0]%Q;
  Batch.batch := torch.tensor_of [2]%nat [0; 0]%Q;
  Batch.y := torch.tensor_of [1]%nat [3]%Q
|}.

(** The same graph with a 0-dimensional target. *)
Definition scalar_target : Batch.t := {|
  Batch.x := Batch.x one_graph;
  Batch.positions := Batch.positions one_graph;
  Batch.batch := Batch.batch one_graph;
  Batch.y := torch.scalar (torch.Finite 3)
|}.

End Scenario.

(** * Proofs *)

(** ** The monad *)
Section MonadFacts.
Context {World : Type}.
Implicit Types w : World.

Lemma bind_Ok_inv {A B} (m : M World A) (k : A -> M World B) w b w' :
  bind m k w = (Ok b, w') ->
  exists a w1, m w = (Ok a, w1) /\ k a w1 = (Ok b, w').
Proof.
  unfold bind. destruct (m w) as [[a|e] w1]; intros H.
  - exists a, w1. split; [reflexivity | exact H].
  - discriminate H.
Qed.

Lemma bind_Ok {A B} (m : M World A) (k : A -> M World B) w a w1 :
  m w = (Ok a, w1) -> bind m k w = k a w1.
Proof. unfold bind. intros ->. reflexivity. Qed.

Lemma bind_lift_Ok {A B} (a : A) (k : A -> M World B) :
  bind (lift (Ok a)) k = k a.
Proof. reflexivity. Qed.

Lemma bind_lift_Raise {A B} e (k : A -> M World B) :
  bind (lift (Raise e)) k = raise e.
Proof. reflexivity. Qed.

Lemma bind_Raise {A B} (m : M World A) (k : A -> M World B) w e w1 :
  m w = (Raise e, w1) -> bind m k w = (Raise e, w1).
Proof. unfold bind. intros ->. reflexivity. Qed.

Lemma lift_Ok_inv {A} (r : result A) w a w' :
  lift r w = (Ok a, w') -> r = Ok a /\ w' = w.
Proof. unfold lift. intros H. injection H as -> ->. split; reflexivity. Qed.

Lemma ret_inv {A} (a b : A) w w' :
  ret a w = (Ok b, w') -> a = b /\ w' = w.
Proof. unfold ret. intros H. injection H as -> ->. split; reflexivity. Qed.

Lemma pure_ret {A} (a : A) : pure (World := World) (ret a).
Proof. exists (Ok a). reflexivity. Qed.

Lemma pure_raise {A} e : pure (World := World) (raise (A := A) e).
Proof. exists (Raise e). reflexivity. Qed.

Lemma pure_lift {A} (r : result A) : pure (World := World) (lift r).
Proof. exists r. reflexivity. Qed.

Lemma pure_bind {A B} (m : M World A) (k : A -> M World B) :
  pure m -> (forall a, pure (k a)) -> pure (bind m k).
Proof.
  intros [r Hm] Hk. destruct r as [a|e].
  - destruct (Hk a) as [r' Hr']. exists r'. intros w.
    unfold bind. rewrite Hm. apply Hr'.
  - exists (Raise e). intros w. unfold bind. rewrite Hm. reflexivity.
Qed.

End MonadFacts.

(** ** The factory is the dispatch of the specification *)
Section Factory.
Context {World Opaque : Type} (E : Externals World Opaque).

Lemma model_setup_dispatch (config : dict) (w : World) :
  pl_model.model_setup E config w = spec_model_setup E config w.
Proof.
  unfold pl_model.model_setup, spec_model_setup, py.dict_getitem.
  destruct (config !! "model") as [mc|]; [|reflexivity].
  destruct (config !! "model_name") as [name|]; [|reflexivity].
  rewrite !bind_lift_Ok.
  destruct name; try reflexivity.
  unfold class_of_name. cbn [py.eq_str].
  destruct (String.eqb s "SchNet"); [reflexivity|].
  destruct (String.eqb s "DimeNet"); [reflexivity|].
  destruct (String.eqb s "DimeNetPlusPlus"); [reflexivity|].
  destruct (String.eqb s "GemNet"); [reflexivity|].
  destruct (String.eqb s "SphereNet"); reflexivity.
Qed.

Lemma class_of_name_supported (name : string) :
  In name supported_names <-> is_Some (class_of_name name).
Proof.
  unfold class_of_name, supported_names. cbn [In].
  destruct (String.eqb_spec name "SchNet"); [split; eauto|].
  destruct (String.eqb_spec name "DimeNet"); [split; eauto|].
  destruct (String.eqb_spec name "DimeNetPlusPlus"); [split; eauto 6|].
  destruct (String.eqb_spec name "GemNet"); [split; eauto 6|].
  destruct (String.eqb_spec name "SphereNet"); [split; eauto 7|].
  split.
  - intros [?|[?|[?|[?|[?|[]]]]]]; congruence.
  - intros [? ?]. discriminate.
Qed.

Lemma class_of_name_SchNet (name : string) (c : ModelClass) :
  class_of_name name = Some c -> (c = SchNet_class <-> name = "SchNet").
Proof.
  unfold class_of_name.
  destruct (String.eqb_spec name "SchNet") as [->|Hne].
  - intros [= <-]. split; reflexivity.
  - repeat match goal with
           | |- context [String.eqb ?a ?b] => destruct (String.eqb a b)
           end;
      intros [= <-]; split; intros; congruence.
Qed.

Lemma eval_kwargs_supplied (d : dict) (l : list (string * arg)) :
  (forall key, In key (keys_of l) -> is_Some (d !! key)) ->
  exists kw, eval_kwargs (VDict d) l = Ok kw.
Proof.
  induction l as [|[name a] l IH]; intros H.
  - exists []. reflexivity.
  - destruct IH as [kw Hkw].
    { intros key Hkey. apply H. unfold keys_of. cbn [flat_map].
      apply in_or_app. right. exact Hkey. }
    cbn [eval_kwargs]. rewrite Hkw. destruct a as [key|v].
    + destruct (H key) as [v Hv].
      { unfold keys_of. cbn. left. reflexivity. }
      cbn [eval_arg py.getitem]. unfold py.dict_getitem. rewrite Hv.
      eauto.
    + cbn [eval_arg]. eauto.
Qed.

Lemma instantiate_Ok (c : ModelClass) kw w st w1 :
  init_model E c kw w = (Ok st, w1) ->
  instantiate E c kw w
  = (Ok {| model_class := c; model_kwargs := kw; model_state := st |}, w1).
Proof. intros H. unfold instantiate. rewrite (bind_Ok _ _ _ _ _ H). reflexivity. Qed.

Lemma torch_nn_Linear_Ok (i o : value) w st w1 :
  init_linear E i o w = (Ok st, w1) ->
  torch_nn_Linear E i o w
  = (Ok {| in_features := i; out_features := o; linear_state := st |}, w1).
Proof.
  intros H. unfold torch_nn_Linear. rewrite (bind_Ok _ _ _ _ _ H). reflexivity.
Qed.

Lemma spec_build_returned (c : ModelClass) (mc : value) w m h w' :
  spec_build E c mc w = (Ok (m, h), w') ->
  model_class m = c
  /\ eval_kwargs mc (kwargs_of c) = Ok (model_kwargs m)
  /\ (is_Some h <-> c = SchNet_class).
Proof.
  unfold spec_build. intros H.
  apply bind_Ok_inv in H as (kw & w1 & Hkw & H).
  apply lift_Ok_inv in Hkw as [Hkw _].
  apply bind_Ok_inv in H as (m0 & w2 & Hm & H).
  unfold instantiate in Hm.
  apply bind_Ok_inv in Hm as (st & w3 & _ & Hm).
  apply ret_inv in Hm as [<- ->].
  destruct c.
  - apply bind_Ok_inv in H as (i & w4 & _ & H).
    apply bind_Ok_inv in H as (o & w5 & _ & H).
    apply bind_Ok_inv in H as (l & w6 & _ & H).
    apply ret_inv in H as [[= <- <-] _].
    repeat split; eauto.
  - apply ret_inv in H as [[= <- <-] _].
    repeat split; auto; [intros [? ?]|]; discriminate.
  - apply ret_inv in H as [[= <- <-] _].
    repeat split; auto; [intros [? ?]|]; discriminate.
  - apply ret_inv in H as [[= <- <-] _].
    repeat split; auto; [intros [? ?]|]; discriminate.
  - apply ret_inv in H as [[= <- <-] _].
    repeat split; auto; [intros [? ?]|]; discriminate.
Qed.

Lemma spec_build_returns (c : ModelClass) (mc : value) w :
  supplies mc c -> constructor_calls_return E c mc w ->
  exists m h w', spec_build E c mc w = (Ok (m, h), w').
Proof.
  intros (d & -> & Hkeys) Hcalls.
  destruct (eval_kwargs_supplied d (kwargs_of c)) as [kw Hkw].
  { intros key Hkey. apply Hkeys. unfold required_keys.
    apply in_or_app. left. exact Hkey. }
  destruct (Hcalls kw Hkw) as (st & w1 & Hst & Hlinear).
  unfold spec_build. rewrite Hkw, bind_lift_Ok.
  rewrite (bind_Ok _ _ _ _ _ (instantiate_Ok _ _ _ _ _ Hst)).
  destruct c; try (eexists _, _, _; reflexivity).
  destruct (Hkeys "emb_dim") as [i Hi].
  { unfold required_keys. apply in_or_app. right. cbn. eauto. }
  destruct (Hkeys "num_tasks") as [o Ho].
  { unfold required_keys. apply in_or_app. right. cbn. eauto. }
  destruct (Hlinear eq_refl i o) as (st' & w2 & Hst').
  { cbn [py.getitem]. unfold py.dict_getitem. rewrite Hi. reflexivity. }
  { cbn [py.getitem]. unfold py.dict_getitem. rewrite Ho. reflexivity. }
  cbn [py.getitem]. unfold py.dict_getitem. rewrite Hi, Ho.
  rewrite !bind_lift_Ok.
  rewrite (bind_Ok _ _ _ _ _ (torch_nn_Linear_Ok _ _ _ _ _ Hst')).
  eexists _, _, _. reflexivity.
Qed.

(** Whatever pair the factory returns, its model is of the class that the
    configured name names, and it has a head exactly for SchNet. *)
Lemma model_setup_returned (config : dict) w m h w' :
  pl_model.model_setup E config w = (Ok (m, h), w') ->
  exists name c,
    config !! "model_name" = Some (VStr name)
    /\ class_of_name name = Some c
    /\ model_class m = c
    /\ (is_Some h <-> name = "SchNet").
Proof.
  rewrite model_setup_dispatch. unfold spec_model_setup, py.dict_getitem.
  destruct (config !! "model") as [mc|]; [|discriminate].
  destruct (config !! "model_name") as [name|]; [|discriminate].
  rewrite !bind_lift_Ok.
  destruct name; try discriminate.
  destruct (class_of_name s) as [c|] eqn:Hc; [|discriminate].
  intros H. apply spec_build_returned in H as (Hm & _ & Hh).
  exists s, c. repeat split; auto.
  - intros Hs. apply (class_of_name_SchNet _ _ Hc). apply Hh, Hs.
  - intros Hs. apply Hh. apply (class_of_name_SchNet _ _ Hc), Hs.
Qed.

End Factory.

(** ** The claims about the factory *)

(** C1, as stated, fails: a record that names SchNet and whose [model]
    mapping supplies no hyperparameter makes the factory raise
    [KeyError] at the first key it reads, so the factory does not return
    a pair for every record with a supported name.  Nor does it on a
    record that supplies every key when the constructor of the model
    rejects its arguments. *)
Lemma model_setup_needs_hyperparameters :
  pl_model.model_setup (Sim.ext true) Sim.bare_config 0%nat
  = (Raise (KeyError "emb_dim"), 0%nat)
  /\ pl_model.model_setup (Scenario.rejecting (ValueError "readout"))
       Sim.schnet_config 0%nat
     = (Raise (ValueError "readout"), 1%nat)
  /\ ~ (forall (config : dict) (name : string) (c : ModelClass) (w : nat),
          config !! "model_name" = Some (VStr name) ->
          class_of_name name = Some c ->
          exists m h w',
            pl_model.model_setup (Sim.ext true) config w = (Ok (m, h), w')
            /\ model_class m = c
            /\ (is_Some h <-> name = "SchNet")).
Proof.
  assert (Hrun : pl_model.model_setup (Sim.ext true) Sim.bare_config 0%nat
                 = (Raise (KeyError "emb_dim"), 0%nat))
    by (vm_compute; reflexivity).
  split; [exact Hrun|].
  split; [vm_compute; reflexivity|].
  intros H.
  destruct (H Sim.bare_config "SchNet" SchNet_class 0%nat)
    as (m & h & w' & Heq & _).
  - vm_compute. reflexivity.
  - reflexivity.
  - rewrite Hrun in Heq. discriminate Heq.
Qed.

(** C1, amended: for every configuration record whose [model_name] is one
    of the five supported strings and whose [model] mapping supplies the
    keys read for that model, and provided the constructor calls that the
    factory makes on that record return, both definitions of the factory
    return a pair whose first component is an
    instance of the class the name names, constructed with the keyword
    arguments read from the mapping, and whose second component is a
    linear layer if and only if the name is "SchNet", and [None] for the
    other four. *)
Theorem model_setup_supported_name {World Opaque : Type}
  (E : Externals World Opaque) (config : dict) (name : string)
  (c : ModelClass) (mc : value) (w : World) :
  config !! "model_name" = Some (VStr name) ->
  class_of_name name = Some c ->
  config !! "model" = Some mc ->
  supplies mc c ->
  constructor_calls_return E c mc w ->
  exists m h w',
    pl_model.model_setup E config w = (Ok (m, h), w')
    /\ train_models.model_setup E config w = (Ok (m, h), w')
    /\ model_class m = c
    /\ eval_kwargs mc (kwargs_of c) = Ok (model_kwargs m)
    /\ (is_Some h <-> name = "SchNet")
    /\ (h = None <-> name <> "SchNet").
Proof.
  intros Hname Hc Hmc Hkeys Hret.
  destruct (spec_build_returns E c mc w Hkeys Hret) as (m & h & w' & Hb).
  assert (Hrun : pl_model.model_setup E config w = (Ok (m, h), w')).
  { rewrite model_setup_dispatch. unfold spec_model_setup, py.dict_getitem.
    rewrite Hmc, Hname, !bind_lift_Ok, Hc. exact Hb. }
  apply spec_build_returned in Hb as (Hm & Hkw & Hh).
  pose proof (class_of_name_SchNet _ _ Hc) as Hs.
  exists m, h, w'. repeat split; auto.
  - intros Hsome. apply Hs, Hh, Hsome.
  - intros ->. apply Hh, Hs. reflexivity.
  - intros -> Hn. destruct Hh as [_ Hh].
    destruct (Hh (proj2 Hs Hn)) as [? ?]. discriminate.
  - intros Hn. destruct h as [l|]; [|reflexivity].
    exfalso. apply Hn, Hs, Hh. eauto.
Qed.

Lemma model_setup_supported_name_witness :
  exists m h w',
    pl_model.model_setup (Sim.ext true) Sim.schnet_config 0%nat = (Ok (m, h), w')
    /\ train_models.model_setup (Sim.ext true) Sim.schnet_config 0%nat
       = (Ok (m, h), w')
    /\ model_class m = SchNet_class
    /\ eval_kwargs (VDict Sim.schnet_model) (kwargs_of SchNet_class)
       = Ok (model_kwargs m)
    /\ (is_Some h <-> "SchNet" = "SchNet")
    /\ (h = None <-> "SchNet" <> "SchNet").
Proof.
  apply (model_setup_supported_name (Sim.ext true) Sim.schnet_config "SchNet"
           SchNet_class (VDict Sim.schnet_model) 0%nat).
  - vm_compute. reflexivity.
  - reflexivity.
  - vm_compute. reflexivity.
  - exists Sim.schnet_model. split; [reflexivity|].
    intros key Hkey. cbn in Hkey.
    repeat (destruct Hkey as [<-|Hkey]; [vm_compute; eauto|]).
    destruct Hkey.
  - intros kw Hkw. eexists _, _. split; [reflexivity|].
    intros _ i o Hi Ho. eexists _, _. reflexivity.
Defined.

(** C2: for every configuration record whose [model_name] is a string
    outside the five supported ones, both definitions of the factory
    raise and return nothing, before any constructor is called (the world
    is untouched); with a [model] entry present the exception is
    [ValueError("Invalid model name")], without one the [KeyError] of the
    first statement. *)
Theorem model_setup_unknown_name {World Opaque : Type}
  (E : Externals World Opaque) (config : dict) (name : string) (w : World) :
  config !! "model_name" = Some (VStr name) ->
  ~ In name supported_names ->
  exists e,
    pl_model.model_setup E config w = (Raise e, w)
    /\ train_models.model_setup E config w = (Raise e, w)
    /\ (is_Some (config !! "model") -> e = ValueError "Invalid model name")
    /\ (config !! "model" = None -> e = KeyError "model").
Proof.
  intros Hname Hnot.
  assert (Hc : class_of_name name = None).
  { destruct (class_of_name name) eqn:Hc; [|reflexivity].
    exfalso. apply Hnot, class_of_name_supported. rewrite Hc. eauto. }
  change (train_models.model_setup E config w)
    with (pl_model.model_setup E config w).
  rewrite model_setup_dispatch. unfold spec_model_setup, py.dict_getitem.
  destruct (config !! "model") as [mc|].
  - rewrite Hname, !bind_lift_Ok, Hc.
    exists (ValueError "Invalid model name").
    repeat split; auto. discriminate.
  - exists (KeyError "model"). repeat split; auto.
    intros [? ?]. discriminate.
Qed.

Lemma model_setup_unknown_name_witness :
  exists e,
    pl_model.model_setup (Sim.ext true) Sim.unknown_config 0%nat = (Raise e, 0%nat)
    /\ train_models.model_setup (Sim.ext true) Sim.unknown_config 0%nat
       = (Raise e, 0%nat)
    /\ (is_Some (Sim.unknown_config !! "model")
        -> e = ValueError "Invalid model name")
    /\ (Sim.unknown_config !! "model" = None -> e = KeyError "model").
Proof.
  apply (model_setup_unknown_name (Sim.ext true) Sim.unknown_config "PaiNN").
  - vm_compute. reflexivity.
  - cbn. intros [H|[H|[H|[H|[H|[]]]]]]; discriminate H.
Defined.

Section Purity.
Context {World Opaque : Type} (E : Externals World Opaque).

Lemma pure_ext {A} (m m' : M World A) :
  (forall w, m' w = m w) -> pure m -> pure m'.
Proof.
  intros Heq [r Hr]. exists r. intros w. rewrite Heq. apply Hr.
Qed.

Lemma spec_build_pure (c : ModelClass) (mc : value) :
  constructors_pure E -> pure (spec_build E c mc).
Proof.
  intros [Hmodel Hlinear]. unfold spec_build.
  apply pure_bind; [apply pure_lift | intros kw].
  apply pure_bind.
  { unfold instantiate. apply pure_bind; [apply Hmodel | intros st].
    apply pure_ret. }
  intros m. destruct c; try apply pure_ret.
  apply pure_bind; [apply pure_lift | intros i].
  apply pure_bind; [apply pure_lift | intros o].
  apply pure_bind; [|intros l; apply pure_ret].
  unfold torch_nn_Linear. apply pure_bind; [apply Hlinear | intros st].
  apply pure_ret.
Qed.

Lemma spec_model_setup_pure (config : dict) :
  constructors_pure E -> pure (spec_model_setup E config).
Proof.
  intros HE. unfold spec_model_setup.
  apply pure_bind; [apply pure_lift | intros mc].
  apply pure_bind; [apply pure_lift | intros name].
  destruct name; try apply pure_raise.
  destruct (class_of_name s); [|apply pure_raise].
  apply spec_build_pure, HE.
Qed.

Lemma spec_model_setup_reads (c1 c2 : dict) :
  c1 !! "model_name" = c2 !! "model_name" ->
  c1 !! "model" = c2 !! "model" ->
  spec_model_setup E c1 = spec_model_setup E c2.
Proof.
  intros Hname Hmodel. unfold spec_model_setup, py.dict_getitem.
  rewrite Hname, Hmodel. reflexivity.
Qed.

End Purity.

(** C8, as stated, fails: with constructors that draw the state of a new
    instance from the random generator, as [torch] initialises the weights
    of a layer, two invocations on the same record in different states of
    the generator yield different pairs, and an invocation advances the
    generator. *)
Lemma model_setup_draws_from_generator :
  fst (pl_model.model_setup (Sim.ext true) Sim.schnet_config 0%nat)
  <> fst (pl_model.model_setup (Sim.ext true) Sim.schnet_config 1%nat)
  /\ snd (pl_model.model_setup (Sim.ext true) Sim.schnet_config 0%nat) = 2%nat
  /\ ~ (forall (config : dict) (w1 w2 : nat),
          fst (pl_model.model_setup (Sim.ext true) config w1)
          = fst (pl_model.model_setup (Sim.ext true) config w2)
          /\ snd (pl_model.model_setup (Sim.ext true) config w1) = w1).
Proof.
  assert (Hstate :
    snd (pl_model.model_setup (Sim.ext true) Sim.schnet_config 0%nat) = 2%nat)
    by (vm_compute; reflexivity).
  split; [|split; [exact Hstate|]].
  - vm_compute. intros H. discriminate H.
  - intros H. destruct (H Sim.schnet_config 0%nat 1%nat) as [_ H2].
    rewrite Hstate in H2. discriminate H2.
Qed.

(** C8, amended: the factory has no effect of its own and reads only the
    [model_name] and [model] entries of the record.  Two records that
    agree on these entries yield the same outcome in the same state of
    the world; and when the constructors are pure, the outcome of the
    factory on a record is the same in every state of the world and
    leaves it unchanged.  Both definitions of the factory. *)
Theorem model_setup_pure_up_to_constructors {World Opaque : Type}
  (E : Externals World Opaque) :
  (forall (c1 c2 : dict) (w : World),
      c1 !! "model_name" = c2 !! "model_name" ->
      c1 !! "model" = c2 !! "model" ->
      pl_model.model_setup E c1 w = pl_model.model_setup E c2 w
      /\ train_models.model_setup E c1 w = train_models.model_setup E c2 w)
  /\ (constructors_pure E ->
      forall config : dict,
        pure (pl_model.model_setup E config)
        /\ pure (train_models.model_setup E config)).
Proof.
  split.
  - intros c1 c2 w Hname Hmodel.
    change (train_models.model_setup E) with (pl_model.model_setup E).
    rewrite !model_setup_dispatch, (spec_model_setup_reads E c1 c2 Hname Hmodel).
    split; reflexivity.
  - intros HE config.
    change (train_models.model_setup E) with (pl_model.model_setup E).
    assert (H : pure (pl_model.model_setup E config)).
    { apply (pure_ext (spec_model_setup E config)).
      - intros w. apply model_setup_dispatch.
      - apply spec_model_setup_pure, HE. }
    split; exact H.
Qed.

Lemma model_setup_pure_up_to_constructors_witness :
  pure (pl_model.model_setup (Sim.ext false) Sim.schnet_config)
  /\ pure (train_models.model_setup (Sim.ext false) Sim.schnet_config).
Proof.
  apply (proj2 (model_setup_pure_up_to_constructors (Sim.ext false))).
  split; intros; exists (Ok 0%nat); reflexivity.
Defined.

(** C10: the definition of the factory in [pl_model.py] and the one in
    [train_models.py] are extensionally equal: on every configuration
    record and in every state of the world they have the same outcome,
    the same pair or the same exception, and the same effect. *)
Theorem model_setup_definitions_agree {World Opaque : Type}
  (E : Externals World Opaque) (config : dict) (w : World) :
  pl_model.model_setup E config w = train_models.model_setup E config w
  /\ (raises (fst (pl_model.model_setup E config w))
      <-> raises (fst (train_models.model_setup E config w))).
Proof.
  assert (H : pl_model.model_setup E config w
              = train_models.model_setup E config w).
  { unfold pl_model.model_setup, train_models.model_setup.
    reflexivity. }
  split; [exact H|]. rewrite H. reflexivity.
Qed.

(** ** Tensors: the mean-squared error *)
Section TensorFacts.
Import torch.

Lemma square_nonneg (x : Q) : (0 <= x * x)%Q.
Proof. destruct x as [n d]. unfold Qle, Qmult. cbn. nia. Qed.

Lemma squared_error_nan_or_nonnegative (p y : number) :
  nan_or_nonnegative (squared_error p y).
Proof.
  destruct p as [a|], y as [b|]; cbn; try (left; reflexivity).
  right. eexists. split; [reflexivity | apply square_nonneg].
Qed.


Lemma squared_errors_nan_or_nonnegative (a b : list number) :
  Forall nan_or_nonnegative (zip_with squared_error a b).
Proof.
  revert b. induction a as [|x a IH]; intros [|y b]; cbn; constructor.
  - apply squared_error_nan_or_nonnegative.
  - apply IH.
Qed.



Lemma sum_nan_or_nonnegative (l : list number) :
  Forall nan_or_nonnegative l -> nan_or_nonnegative (sum l).
Proof.
  induction 1 as [|v l Hv _ IH]; cbn.
  - right. exists 0%Q. split; [reflexivity | apply Qle_refl].
  - fold (sum l). destruct Hv as [->|(q & -> & Hq)]; [left; reflexivity|].
    destruct IH as [->|(total & -> & Htotal)]; [left; reflexivity|].
    right. cbn. eexists. split; [reflexivity|].
    replace 0%Q with (0 + 0)%Q by reflexivity.
    apply Qplus_le_compat; assumption.
Qed.

Lemma quotient_nonneg (total : Q) (n : nat) :
  (0 <= total)%Q -> (0 <= total / inject_Z (Z.of_nat n))%Q.
Proof.
  intros H. unfold Qdiv. apply Qmult_le_0_compat; [exact H|].
  apply Qinv_le_0_compat. unfold Qle. cbn. lia.
Qed.


(** The mean of squared errors is NaN, as it is of none, or not
    negative. *)
Lemma mean_nan_or_nonnegative (l : list number) :
  Forall nan_or_nonnegative l -> nan_or_nonnegative (mean l).
Proof.
  intros H. destruct l as [|v l]; [left; reflexivity|].
  unfold mean.
  destruct (sum_nan_or_nonnegative _ H) as [->|(total & -> & Htotal)];
    [left; reflexivity|].
  right. eexists. split; [reflexivity|]. apply quotient_nonneg, Htotal.
Qed.

(** Whenever [mse_loss] returns, it returns a 0-dimensional tensor whose
    one entry is NaN or a number that is not negative. *)
Lemma mse_loss_nan_or_nonnegative (input target l : tensor) :
  mse_loss input target = Ok l ->
  exists v, l = scalar v /\ nan_or_nonnegative v.
Proof.
  unfold mse_loss.
  destruct (broadcast_shapes (shape input) (shape target)) as [s|];
    [|discriminate].
  intros [= <-]. eexists. split; [reflexivity|].
  apply mean_nan_or_nonnegative, squared_errors_nan_or_nonnegative.
Qed.



Lemma broadcast_rev_same (a : list nat) : broadcast_rev a a = Some a.
Proof.
  induction a as [|x a IH]; [reflexivity|].
  cbn. rewrite IH, Nat.eqb_refl. reflexivity.
Qed.

Lemma broadcast_shapes_same (a : list nat) : broadcast_shapes a a = Some a.
Proof.
  unfold broadcast_shapes. rewrite broadcast_rev_same, rev_involutive.
  reflexivity.
Qed.

Lemma concat_chunks (k n : nat) (d : list number) :
  length d = (k * n)%nat -> concat (chunks k n d) = d.
Proof.
  revert d. induction k as [|k IH]; intros d Hd; cbn.
  - destruct d; [reflexivity | discriminate].
  - rewrite IH; [apply take_drop|].
    rewrite length_drop. lia.
Qed.

Lemma chunks_lengths (k n : nat) (d : list number) :
  length d = (k * n)%nat ->
  Forall (fun c => length c = n) (chunks k n d).
Proof.
  revert d. induction k as [|k IH]; intros d Hd; cbn; constructor.
  - rewrite length_take. lia.
  - apply IH. rewrite length_drop. lia.
Qed.

Lemma map_fixed {A} (f : A -> A) (l : list A) :
  Forall (fun a => f a = a) l -> map f l = l.
Proof.
  induction 1 as [|a l Ha _ IH]; cbn; [reflexivity|].
  rewrite Ha, IH. reflexivity.
Qed.

Lemma expand_data_same (s : list nat) (d : list number) :
  length d = numel s -> expand_data s s d = d.
Proof.
  revert d. induction s as [|n s IH]; intros d Hd; [reflexivity|].
  cbn [expand_data]. rewrite Nat.eqb_refl.
  cbn [numel foldr] in Hd. fold (numel s) in Hd.
  rewrite map_fixed; [apply concat_chunks, Hd|].
  eapply Forall_impl; [apply chunks_lengths, Hd|].
  intros c Hc. apply IH, Hc.
Qed.

Lemma expand_same (t : tensor) :
  well_formed t -> expand t (shape t) = t.
Proof.
  intros H. unfold expand. rewrite Nat.sub_diag. cbn [replicate app].
  rewrite expand_data_same by exact H. destruct t; reflexivity.
Qed.

(** On two tensors of one shape, [mse_loss] is the mean of the squared
    differences of their entries. *)
Lemma mse_loss_same_shape (input target : tensor) :
  shape input = shape target ->
  well_formed input -> well_formed target ->
  mse_loss input target
  = Ok (scalar (mean (zip_with squared_error (data input) (data target)))).
Proof.
  intros Hs Hi Ht. unfold mse_loss.
  rewrite Hs, broadcast_shapes_same.
  rewrite (expand_same target Ht).
  rewrite <- Hs, (expand_same input Hi). reflexivity.
Qed.

End TensorFacts.

(** ** The adapter *)
Section Adapter.
Context {World Opaque : Type} (E : Externals World Opaque).
Implicit Types (self : Pymodel Opaque) (batch : Batch.t) (w : World).

(** The loss computation of the code is the loss of the specification. *)
Lemma get_preds_loss_spec self batch w :
  pl_model._get_preds_loss_accuracy E self batch w = spec_loss E self batch w.
Proof.
  unfold pl_model._get_preds_loss_accuracy, spec_loss, spec_predictions,
    spec_target, call, call_head.
  destruct (graph_pred_linear self) as [head|]; unfold bind, lift, ret;
    destruct (call_model E _ _ _ _ w) as [[z|e] w1]; reflexivity.
Qed.


(** Whatever the loss computation returns is a 0-dimensional tensor whose
    one entry is NaN or a number that is not negative. *)
Lemma get_preds_loss_nan_or_nonnegative self batch w l w1 :
  pl_model._get_preds_loss_accuracy E self batch w = (Ok l, w1) ->
  exists v, l = torch.scalar v /\ torch.nan_or_nonnegative v.
Proof.
  rewrite get_preds_loss_spec. unfold spec_loss. intros H.
  apply bind_Ok_inv in H as (p & w2 & _ & H).
  apply bind_Ok_inv in H as (t & w3 & _ & H).
  apply lift_Ok_inv in H as [H _].
  apply (mse_loss_nan_or_nonnegative _ _ _ H).
Qed.

(** A step returns the loss it computed. *)
Lemma training_step_returned self batch idx w l w' :
  pl_model.training_step E self batch idx w = (Ok l, w') ->
  exists w1, pl_model._get_preds_loss_accuracy E self batch w = (Ok l, w1).
Proof.
  unfold pl_model.training_step. intros H.
  apply bind_Ok_inv in H as (l0 & w1 & Hl & H).
  apply bind_Ok_inv in H as (n & w2 & _ & H).
  apply bind_Ok_inv in H as (u & w3 & _ & H).
  apply ret_inv in H as [<- _]. exists w1. exact Hl.
Qed.

Lemma validation_step_returned self batch idx w l w' :
  pl_model.validation_step E self batch idx w = (Ok l, w') ->
  exists w1, pl_model._get_preds_loss_accuracy E self batch w = (Ok l, w1).
Proof.
  unfold pl_model.validation_step. intros H.
  apply bind_Ok_inv in H as (l0 & w1 & Hl & H).
  apply bind_Ok_inv in H as (n & w2 & _ & H).
  apply bind_Ok_inv in H as (u & w3 & _ & H).
  apply ret_inv in H as [<- _]. exists w1. exact Hl.
Qed.

(** Without a head, [forward] raises: either the model does, or the call
    of [None] that follows it. *)
Lemma forward_headless_raises self batch w :
  graph_pred_linear self = None ->
  raises (fst (pl_model.forward E self batch w)).
Proof.
  intros Hnone. unfold pl_model.forward, call, call_head, bind.
  rewrite Hnone.
  destruct (call_model E _ _ _ _ w) as [[z|e] w1]; cbn; eexists; reflexivity.
Qed.

End Adapter.

(** C3: for every batch, the loss computation of the adapter is the
    mean-squared error of the predictions against the target, where with
    a head the predictions are the output of the model passed through the
    head and the target is [y.unsqueeze(1)], and without a head the
    predictions are the squeezed output of the model and the target is
    [y] unchanged; the two differ in nothing else.  When predictions and
    target have one shape, the loss is the mean of the squared
    differences of their entries. *)
Theorem loss_is_mse_of_predictions {World Opaque : Type}
  (E : Externals World Opaque) (self : Pymodel Opaque) (batch : Batch.t)
  (w : World) :
  pl_model._get_preds_loss_accuracy E self batch w = spec_loss E self batch w
  /\ (forall p w1 t,
        spec_predictions E self batch w = (Ok p, w1) ->
        spec_target self batch = Ok t ->
        torch.shape p = torch.shape t ->
        torch.well_formed p -> torch.well_formed t ->
        pl_model._get_preds_loss_accuracy E self batch w
        = (Ok (torch.scalar
                 (torch.mean (zip_with torch.squared_error
                                (torch.data p) (torch.data t)))), w1)).
Proof.
  split; [apply get_preds_loss_spec|].
  intros p w1 t Hp Ht Hs Hwp Hwt.
  rewrite get_preds_loss_spec. unfold spec_loss.
  rewrite (bind_Ok _ _ _ _ _ Hp), Ht, bind_lift_Ok.
  unfold lift. rewrite (mse_loss_same_shape p t Hs Hwp Hwt). reflexivity.
Qed.

Lemma loss_is_mse_of_predictions_witness :
  pl_model._get_preds_loss_accuracy (Sim.ext true)
    (Sim.adapter_of Sim.schnet_config) Sim.two_graphs 2%nat
  = (Ok (torch.scalar (1 # 2)), 2%nat).
Proof.
  rewrite (proj2 (loss_is_mse_of_predictions (Sim.ext true)
                    (Sim.adapter_of Sim.schnet_config) Sim.two_graphs 2%nat)
             (torch.tensor_of [2; 1]%nat [1; 1]%Q) 2%nat
             (torch.tensor_of [2; 1]%nat [1; 2]%Q)).
  - vm_compute. reflexivity.
  - vm_compute. reflexivity.
  - vm_compute. reflexivity.
  - reflexivity.
  - reflexivity.
  - reflexivity.
Defined.




(** C4 fails on the code.  [forward] calls the head without the test for
    [None] that the loss computation makes: on an adapter without a head,
    here the one the factory yields for DimeNet, [forward] raises
    [TypeError] and produces no prediction, on a batch on which the loss
    computation of the same adapter returns. *)
Theorem forward_without_head_at_dimenet :
  graph_pred_linear (Sim.adapter_of (Sim.dimenet_config 1)) = None
  /\ pl_model.forward (Sim.ext true) (Sim.adapter_of (Sim.dimenet_config 1))
       Sim.two_graphs 1%nat
     = (Raise (TypeError "'NoneType' object is not callable"), 1%nat)
  /\ pl_model._get_preds_loss_accuracy (Sim.ext true)
       (Sim.adapter_of (Sim.dimenet_config 1)) Sim.two_graphs 1%nat
     = (Ok (torch.scalar (5 # 2)), 1%nat).
Proof. repeat split; vm_compute; reflexivity. Qed.

(** C7: for every adapter, [configure_optimizers] returns one optimizer,
    an Adam instance over the parameters of the adapter (those of the
    model, then those of the head when there is one), with the learning
    rate 5e-4, the same for every adapter. *)
Theorem configure_optimizers_adam {Opaque : Type} (self : Pymodel Opaque) :
  pl_model.configure_optimizers self = Adam (parameters self) 5e-4%float
  /\ params (pl_model.configure_optimizers self)
     = model_state (molecule_3D_repr self)
       :: match graph_pred_linear self with
          | Some head => [linear_state head]
          | None => []
          end
  /\ (forall self' : Pymodel Opaque,
        lr (pl_model.configure_optimizers self')
        = lr (pl_model.configure_optimizers self)).
Proof. repeat split. Qed.

(** C9: [forward] applies the head unconditionally.  On an adapter
    without a head it raises for every batch; so it does on every adapter
    built from what either factory returns for a model name other than
    "SchNet"; it returns only if the head is not [None]; and with a head
    it returns the output of the model passed through the head when both
    calls return. *)
Theorem forward_requires_head {World Opaque : Type}
  (E : Externals World Opaque) (self : Pymodel Opaque) (batch : Batch.t)
  (w : World) :
  (graph_pred_linear self = None ->
   raises (fst (pl_model.forward E self batch w)))
  /\ (returns (fst (pl_model.forward E self batch w)) ->
      graph_pred_linear self <> None)
  /\ (forall (config : dict) m h w0 w1,
        pl_model.model_setup E config w0 = (Ok (m, h), w1)
        \/ train_models.model_setup E config w0 = (Ok (m, h), w1) ->
        config !! "model_name" <> Some (VStr "SchNet") ->
        self = new_Pymodel m h ->
        raises (fst (pl_model.forward E self batch w)))
  /\ (forall head z w1 z' w2,
        graph_pred_linear self = Some head ->
        call_model E (molecule_3D_repr self) (Batch.x batch)
          (Batch.positions batch) (Batch.batch batch) w = (Ok z, w1) ->
        call_linear E head z w1 = (Ok z', w2) ->
        pl_model.forward E self batch w = (Ok z', w2)).
Proof.
  split; [apply forward_headless_raises|].
  split.
  { intros [z Hz] Hnone.
    destruct (forward_headless_raises E self batch w Hnone) as [e He].
    congruence. }
  split.
  { intros config m h w0 w1 Hsetup Hname ->.
    apply forward_headless_raises. cbn.
    assert (H : pl_model.model_setup E config w0 = (Ok (m, h), w1))
      by (destruct Hsetup as [H|H]; exact H).
    apply model_setup_returned in H as (name & c & Hn & _ & _ & Hh).
    destruct h as [l|]; [|reflexivity].
    exfalso. apply Hname. rewrite Hn. f_equal. f_equal. apply Hh. eauto. }
  intros head z w1 z' w2 Hhead Hz Hz'.
  unfold pl_model.forward, call, call_head. rewrite Hhead.
  rewrite (bind_Ok _ _ _ _ _ Hz), (bind_Ok _ _ _ _ _ Hz'). reflexivity.
Qed.

Lemma forward_requires_head_witness :
  raises (fst (pl_model.forward (Sim.ext true)
                 (Sim.adapter_of (Sim.dimenet_config 1)) Sim.two_graphs 1%nat))
  /\ pl_model.forward (Sim.ext true) (Sim.adapter_of Sim.schnet_config)
       Sim.two_graphs 2%nat
     = (Ok (torch.tensor_of [2; 1]%nat [1; 1]%Q), 2%nat).
Proof.
  split.
  - apply (proj1 (forward_requires_head (Sim.ext true)
                    (Sim.adapter_of (Sim.dimenet_config 1)) Sim.two_graphs
                    1%nat)).
    vm_compute. reflexivity.
  - apply (proj2 (proj2 (proj2 (forward_requires_head (Sim.ext true)
                    (Sim.adapter_of Sim.schnet_config) Sim.two_graphs 2%nat)))
             {| in_features := VInt 128; out_features := VInt 1;
                linear_state := 1%nat |}
             (torch.tensor_of [2; 1]%nat [0; 0]%Q) 2%nat).
    + vm_compute. reflexivity.
    + vm_compute. reflexivity.
    + vm_compute. reflexivity.
Defined.

(** ** The driver *)
Section Driver.
Context {World Opaque : Type} (E : Externals World Opaque).

(** What [main] holds when it comes to choose the adapter: the linear
    head is the one the factory returned on the configuration, and the
    model is the one the factory returned, passed through [load_3d_rpr]
    when [model_path] is set. *)
Lemma main_setup_returned (config_dir : string) w start config loaders
  model graph_pred_linear w1 :
  train_models.main_setup E config_dir w
  = (Ok (start, config, loaders, (model, graph_pred_linear)), w1) ->
  exists m0 wa wb,
    train_models.model_setup E config wa = (Ok (m0, graph_pred_linear), wb)
    /\ (model = m0
        \/ exists path wc wd,
             config !! "model_path" = Some path
             /\ py.truthy path = true
             /\ load_3d_rpr E m0 path wc = (Ok model, wd)).
Proof.
  unfold train_models.main_setup. intros H.
  apply bind_Ok_inv in H as (start0 & w2 & _ & H).
  apply bind_Ok_inv in H as (config0 & w3 & _ & H).
  apply bind_Ok_inv in H as (seed & w4 & _ & H).
  apply bind_Ok_inv in H as (u1 & w5 & _ & H).
  apply bind_Ok_inv in H as (seed' & w6 & _ & H).
  apply bind_Ok_inv in H as (u2 & w7 & _ & H).
  apply bind_Ok_inv in H as (available & w8 & _ & H).
  cbv zeta in H.
  apply bind_Ok_inv in H as (dataset & w9 & _ & H).
  apply bind_Ok_inv in H as ([tl vl] & w10 & _ & H).
  apply bind_Ok_inv in H as ([m0 gpl] & w11 & Hsetup & H).
  apply bind_Ok_inv in H as (name & w12 & _ & H).
  apply bind_Ok_inv in H as (u3 & w13 & _ & H).
  apply bind_Ok_inv in H as (model_path & w14 & Hpath & H).
  apply bind_Ok_inv in H as (model' & w15 & Hmodel & H).
  apply bind_Ok_inv in H as (running_dir & w16 & _ & H).
  apply bind_Ok_inv in H as (u4 & w17 & _ & H).
  apply bind_Ok_inv in H as (u5 & w18 & _ & H).
  apply ret_inv in H as [[= <- <- <- <- <-] _].
  exists m0, w10, w11. split; [exact Hsetup|].
  apply lift_Ok_inv in Hpath as [Hpath _].
  destruct (py.truthy model_path) eqn:Htruthy.
  - right. apply bind_Ok_inv in Hmodel as (path' & w19 & Hpath' & Hmodel).
    apply lift_Ok_inv in Hpath' as [Hpath' ->].
    rewrite Hpath in Hpath'. injection Hpath' as <-.
    exists model_path, w14, w15. repeat split; auto.
    unfold py.dict_getitem in Hpath.
    destruct (_ !! "model_path"); congruence.
  - left. apply ret_inv in Hmodel as [-> _]. reflexivity.
Qed.

End Driver.

(** C6: in the driver, once the configuration is read and the factory
    has run, if the path configured under [pl_model_chkpt] exists the
    adapter handed to the trainer is the one that
    [Pymodel.load_from_checkpoint] restores from that path, and no fresh
    adapter is constructed; if it does not exist, the adapter is the
    fresh [Pymodel(model, graph_pred_linear)], whose head is the one the
    factory returned and whose model is the one the factory returned,
    passed through [load_3d_rpr] when [model_path] is set. *)
Theorem main_adapter_choice {World Opaque : Type}
  (E : Externals World Opaque) (config_dir : string) (w w1 w2 : World)
  (start : float) (config : dict) (train_loader val_loader : Opaque)
  (model : Model Opaque) (graph_pred_linear : option (Linear Opaque))
  (path : value) (found : bool) :
  train_models.main_setup E config_dir w
  = (Ok (start, config, (train_loader, val_loader),
         (model, graph_pred_linear)), w1) ->
  config !! "pl_model_chkpt" = Some path ->
  os_path_exists E path w1 = (Ok found, w2) ->
  train_models.main_adapter E config model graph_pred_linear w1
  = (if found then load_from_checkpoint E path w2
     else (Ok (new_Pymodel model graph_pred_linear), w2))
  /\ train_models.main E config_dir w
     = bind (if found then load_from_checkpoint E path
             else ret (new_Pymodel model graph_pred_linear))
         (train_models.main_train E start config train_loader val_loader) w2
  /\ exists m0 wa wb,
       train_models.model_setup E config wa = (Ok (m0, graph_pred_linear), wb)
       /\ (model = m0
           \/ exists p wc wd,
                config !! "model_path" = Some p
                /\ py.truthy p = true
                /\ load_3d_rpr E m0 p wc = (Ok model, wd)).
Proof.
  intros Hsetup Hpath Hfound.
  assert (Hadapter : forall A (k : Pymodel Opaque -> M World A),
    bind (train_models.main_adapter E config model graph_pred_linear) k w1
    = bind (if found then load_from_checkpoint E path
            else ret (new_Pymodel model graph_pred_linear)) k w2).
  { intros A k. unfold train_models.main_adapter, py.dict_getitem.
    rewrite Hpath, !bind_lift_Ok. unfold bind at 1 2. rewrite Hfound.
    destruct found; reflexivity. }
  split; [|split].
  - unfold train_models.main_adapter, py.dict_getitem.
    rewrite Hpath, !bind_lift_Ok, (bind_Ok _ _ _ _ _ Hfound).
    destruct found; reflexivity.
  - unfold train_models.main. rewrite (bind_Ok _ _ _ _ _ Hsetup).
    apply Hadapter.
  - apply (main_setup_returned E config_dir w start config
             (train_loader, val_loader) model graph_pred_linear w1 Hsetup).
Qed.

Lemma main_adapter_choice_witness :
  train_models.main_adapter (Sim.ext true)
    (<[ "device" := VDevice "cpu" ]> Sim.resume_config)
    (molecule_3D_repr (Sim.adapter_of Sim.resume_config))
    (graph_pred_linear (Sim.adapter_of Sim.resume_config)) 2%nat
  = (Ok Sim.demo_adapter, 2%nat)
  /\ train_models.main_adapter (Sim.ext true)
       (<[ "device" := VDevice "cpu" ]> Sim.schnet_config)
       (molecule_3D_repr (Sim.adapter_of Sim.schnet_config))
       (graph_pred_linear (Sim.adapter_of Sim.schnet_config)) 2%nat
     = (Ok (Sim.adapter_of Sim.schnet_config), 2%nat).
Proof.
  split.
  - refine (proj1 (main_adapter_choice (Sim.ext true) "resume"
                     0%nat 2%nat 2%nat 0%float
                     (<[ "device" := VDevice "cpu" ]> Sim.resume_config)
                     0%nat 0%nat
                     (molecule_3D_repr (Sim.adapter_of Sim.resume_config))
                     (graph_pred_linear (Sim.adapter_of Sim.resume_config))
                     (VStr "last.ckpt") true _ _ _)).
    + vm_compute. reflexivity.
    + vm_compute. reflexivity.
    + vm_compute. reflexivity.
  - refine (proj1 (main_adapter_choice (Sim.ext true) "fresh"
                     0%nat 2%nat 2%nat 0%float
                     (<[ "device" := VDevice "cpu" ]> Sim.schnet_config)
                     0%nat 0%nat
                     (molecule_3D_repr (Sim.adapter_of Sim.schnet_config))
                     (graph_pred_linear (Sim.adapter_of Sim.schnet_config))
                     (VStr "none.ckpt") false _ _ _)).
    + vm_compute. reflexivity.
    + vm_compute. reflexivity.
    + vm_compute. reflexivity.
Defined.

(** * Further properties *)

(** ** The factory: errors *)
Section FactoryErrors.
Context {World Opaque : Type} (E : Externals World Opaque).

(** On a supported name the factory is the construction for its class. *)
Lemma model_setup_build (config : dict) (name : string) (c : ModelClass)
  (mc : value) (w : World) :
  config !! "model_name" = Some (VStr name) ->
  class_of_name name = Some c ->
  config !! "model" = Some mc ->
  pl_model.model_setup E config w = spec_build E c mc w.
Proof.
  intros Hname Hc Hmc. rewrite model_setup_dispatch.
  unfold spec_model_setup, py.dict_getitem.
  rewrite Hmc, Hname, !bind_lift_Ok, Hc. reflexivity.
Qed.

(** What the factory returned was constructed for a supported name. *)
Lemma model_setup_inv (config : dict) w m h w' :
  pl_model.model_setup E config w = (Ok (m, h), w') ->
  exists name c mc,
    config !! "model_name" = Some (VStr name)
    /\ class_of_name name = Some c
    /\ config !! "model" = Some mc
    /\ spec_build E c mc w = (Ok (m, h), w').
Proof.
  rewrite model_setup_dispatch. unfold spec_model_setup, py.dict_getitem.
  destruct (config !! "model") as [mc|]; [|discriminate].
  destruct (config !! "model_name") as [name|]; [|discriminate].
  rewrite !bind_lift_Ok.
  destruct name; try discriminate.
  destruct (class_of_name s) as [c|] eqn:Hc; [|discriminate].
  intros H. exists s, c, mc. auto.
Qed.

Lemma eval_kwargs_first_missing (d : dict) (l : list (string * arg))
  (pre post : list string) (k : string) :
  keys_of l = pre ++ k :: post ->
  (forall k', In k' pre -> is_Some (d !! k')) ->
  d !! k = None ->
  eval_kwargs (VDict d) l = Raise (KeyError k).
Proof.
  revert pre. induction l as [|[name a] l IH]; intros pre Hkeys Hpre Hk.
  - destruct pre; discriminate Hkeys.
  - destruct a as [key|v].
    + unfold keys_of in Hkeys. cbn [flat_map snd app] in Hkeys.
      fold (keys_of l) in Hkeys.
      destruct pre as [|k0 pre].
      * injection Hkeys as -> Hrest.
        cbn [eval_kwargs eval_arg py.getitem]. unfold py.dict_getitem.
        rewrite Hk. reflexivity.
      * injection Hkeys as -> Hrest.
        destruct (Hpre k0) as [v Hv]; [left; reflexivity|].
        cbn [eval_kwargs eval_arg py.getitem]. unfold py.dict_getitem.
        rewrite Hv.
        rewrite (IH pre Hrest); [reflexivity| |exact Hk].
        intros k' Hk'. apply Hpre. right. exact Hk'.
    + unfold keys_of in Hkeys. cbn [flat_map snd app] in Hkeys.
      fold (keys_of l) in Hkeys.
      cbn [eval_kwargs eval_arg]. rewrite (IH pre Hkeys Hpre Hk). reflexivity.
Qed.

Lemma getitem_not_dict (mc : value) (k : string) :
  (forall d, mc <> VDict d) -> exists msg, py.getitem mc k = Raise (TypeError msg).
Proof.
  intros H. destruct mc; cbn; eauto. exfalso. apply (H d). reflexivity.
Qed.

Lemma eval_kwargs_not_dict (mc : value) (l : list (string * arg)) :
  (forall d, mc <> VDict d) -> keys_of l <> [] ->
  exists msg, eval_kwargs mc l = Raise (TypeError msg).
Proof.
  intros Hmc. induction l as [|[name a] l IH]; intros Hl.
  - exfalso. apply Hl. reflexivity.
  - destruct a as [key|v].
    + destruct (getitem_not_dict mc key Hmc) as [msg Hmsg].
      exists msg. cbn [eval_kwargs eval_arg]. rewrite Hmsg. reflexivity.
    + destruct IH as [msg Hmsg]; [exact Hl|].
      exists msg. cbn [eval_kwargs eval_arg]. rewrite Hmsg. reflexivity.
Qed.

Lemma kwargs_of_reads (c : ModelClass) : keys_of (kwargs_of c) <> [].
Proof. destruct c; discriminate. Qed.

End FactoryErrors.

(** X1: the factory reads [config["model"]] before the model name: a
    record without a [model] entry raises [KeyError('model')] whatever
    else it holds; with a [model] entry and no [model_name] it raises
    [KeyError('model_name')]; and a [model_name] that is not a string is
    an invalid model name.  Nothing is constructed in any of the three
    cases. *)
Theorem model_setup_error_precedence {World Opaque : Type}
  (E : Externals World Opaque) (config : dict) (w : World) :
  (config !! "model" = None ->
   pl_model.model_setup E config w = (Raise (KeyError "model"), w))
  /\ (is_Some (config !! "model") -> config !! "model_name" = None ->
      pl_model.model_setup E config w = (Raise (KeyError "model_name"), w))
  /\ (is_Some (config !! "model") ->
      forall v, config !! "model_name" = Some v ->
                (forall s, v <> VStr s) ->
                pl_model.model_setup E config w
                = (Raise (ValueError "Invalid model name"), w)).
Proof.
  repeat split.
  - intros Hmodel. rewrite model_setup_dispatch.
    unfold spec_model_setup, py.dict_getitem. rewrite Hmodel. reflexivity.
  - intros [mc Hmodel] Hname. rewrite model_setup_dispatch.
    unfold spec_model_setup, py.dict_getitem.
    rewrite Hmodel, Hname. reflexivity.
  - intros [mc Hmodel] v Hname Hv. rewrite model_setup_dispatch.
    unfold spec_model_setup, py.dict_getitem.
    rewrite Hmodel, Hname, !bind_lift_Ok.
    destruct v; try reflexivity. exfalso. apply (Hv s). reflexivity.
Qed.

Lemma model_setup_error_precedence_witness :
  pl_model.model_setup (Sim.ext true) ∅ 0%nat = (Raise (KeyError "model"), 0%nat)
  /\ pl_model.model_setup (Sim.ext true) Scenario.nameless_config 0%nat
     = (Raise (KeyError "model_name"), 0%nat)
  /\ pl_model.model_setup (Sim.ext true) Scenario.numbered_config 0%nat
     = (Raise (ValueError "Invalid model name"), 0%nat).
Proof.
  split; [|split].
  - apply (proj1 (model_setup_error_precedence (Sim.ext true) ∅ 0%nat)).
    reflexivity.
  - apply (proj1 (proj2 (model_setup_error_precedence (Sim.ext true)
                           Scenario.nameless_config 0%nat))).
    + vm_compute. eauto.
    + vm_compute. reflexivity.
  - apply (proj2 (proj2 (model_setup_error_precedence (Sim.ext true)
                           Scenario.numbered_config 0%nat))
             ltac:(vm_compute; eauto) (VInt 3)).
    + vm_compute. reflexivity.
    + intros s. discriminate.
Defined.

(** X2: on a supported name whose [model] mapping is a dictionary that
    lacks a key of the constructor call, the factory raises [KeyError]
    for the first such key in the order of the call, and constructs
    nothing. *)
Theorem model_setup_first_missing_key {World Opaque : Type}
  (E : Externals World Opaque) (config : dict) (name : string)
  (c : ModelClass) (d : dict) (pre post : list string) (k : string)
  (w : World) :
  config !! "model_name" = Some (VStr name) ->
  class_of_name name = Some c ->
  config !! "model" = Some (VDict d) ->
  keys_of (kwargs_of c) = pre ++ k :: post ->
  (forall k', In k' pre -> is_Some (d !! k')) ->
  d !! k = None ->
  pl_model.model_setup E config w = (Raise (KeyError k), w).
Proof.
  intros Hname Hc Hmc Hkeys Hpre Hk.
  rewrite (model_setup_build E config name c _ w Hname Hc Hmc).
  unfold spec_build.
  rewrite (eval_kwargs_first_missing d _ pre post k Hkeys Hpre Hk).
  reflexivity.
Qed.

Lemma model_setup_first_missing_key_witness :
  pl_model.model_setup (Sim.ext true)
    (<[ "model" := VDict (delete "num_blocks" (Sim.dimenet_model 1)) ]>
       (Sim.dimenet_config 1)) 0%nat
  = (Raise (KeyError "num_blocks"), 0%nat).
Proof.
  apply (model_setup_first_missing_key (Sim.ext true) _ "DimeNet"
           DimeNet_class (delete "num_blocks" (Sim.dimenet_model 1))
           ["node_class"; "hidden_channels"; "out_channels"]
           ["num_bilinear"; "num_spherical"; "num_radial"; "cutoff";
            "envelope_exponent"; "num_before_skip"; "num_after_skip";
            "num_output_layers"] "num_blocks").
  - vm_compute. reflexivity.
  - reflexivity.
  - vm_compute. reflexivity.
  - reflexivity.
  - intros k' Hk'. cbn in Hk'.
    repeat (destruct Hk' as [<-|Hk']; [vm_compute; eauto|]).
    destruct Hk'.
  - vm_compute. reflexivity.
Defined.

(** X3: on a supported name whose [model] entry is not a dictionary (a
    string, a list, a number, [None]), the factory raises [TypeError] at
    the first key it reads, and constructs nothing. *)
Theorem model_setup_model_not_dict {World Opaque : Type}
  (E : Externals World Opaque) (config : dict) (name : string)
  (c : ModelClass) (mc : value) (w : World) :
  config !! "model_name" = Some (VStr name) ->
  class_of_name name = Some c ->
  config !! "model" = Some mc ->
  (forall d, mc <> VDict d) ->
  exists msg, pl_model.model_setup E config w = (Raise (TypeError msg), w).
Proof.
  intros Hname Hc Hmc Hnot.
  rewrite (model_setup_build E config name c _ w Hname Hc Hmc).
  destruct (eval_kwargs_not_dict mc (kwargs_of c) Hnot (kwargs_of_reads c))
    as [msg Hmsg].
  exists msg. unfold spec_build. rewrite Hmsg. reflexivity.
Qed.

Lemma model_setup_model_not_dict_witness :
  exists msg,
    pl_model.model_setup (Sim.ext true) Scenario.flat_config 0%nat
    = (Raise (TypeError msg), 0%nat).
Proof.
  apply (model_setup_model_not_dict (Sim.ext true) Scenario.flat_config
           "GemNet" GemNet_class (VStr "gemnet.json")).
  - vm_compute. reflexivity.
  - reflexivity.
  - vm_compute. reflexivity.
  - intros d. discriminate.
Defined.

(** ** The factory: what is constructed *)
Section FactoryConstruction.
Context {World Opaque : Type} (E : Externals World Opaque).

Lemma eval_kwargs_pairs (mc : value) (l : list (string * arg))
  (kw : list (string * value)) :
  eval_kwargs mc l = Ok kw ->
  Forall2 (fun nv na => fst nv = fst na /\ eval_arg mc (snd na) = Ok (snd nv))
    kw l.
Proof.
  revert kw. induction l as [|[name a] l IH]; intros kw H.
  - injection H as <-. constructor.
  - cbn [eval_kwargs] in H.
    destruct (eval_arg mc a) as [v|e] eqn:Hv; [|discriminate].
    destruct (eval_kwargs mc l) as [kw'|e]; [|discriminate].
    injection H as <-. constructor; [split; [reflexivity|exact Hv]|].
    apply IH. reflexivity.
Qed.

Lemma eval_kwargs_names (mc : value) (l : list (string * arg))
  (kw : list (string * value)) :
  eval_kwargs mc l = Ok kw -> map fst kw = map fst l.
Proof.
  intros H. apply eval_kwargs_pairs in H.
  induction H as [|nv na kw l [Hn _] _ IH]; [reflexivity|].
  cbn. rewrite Hn, IH. reflexivity.
Qed.

Lemma eval_kwargs_agree (d1 d2 : dict) (l : list (string * arg)) :
  (forall k, In k (keys_of l) -> d1 !! k = d2 !! k) ->
  eval_kwargs (VDict d1) l = eval_kwargs (VDict d2) l.
Proof.
  induction l as [|[name a] l IH]; intros H; [reflexivity|].
  cbn [eval_kwargs]. rewrite IH.
  - destruct a as [key|v]; [|reflexivity].
    cbn [eval_arg py.getitem]. unfold py.dict_getitem.
    rewrite (H key); [reflexivity|]. left. reflexivity.
  - intros k Hk. apply H. unfold keys_of. cbn [flat_map].
    apply in_or_app. right. exact Hk.
Qed.

Lemma kwargs_names_NoDup (c : ModelClass) : NoDup (map fst (kwargs_of c)).
Proof. destruct c; apply (bool_decide_unpack _); vm_compute; reflexivity. Qed.

End FactoryConstruction.

(** X4: for SchNet, the head is constructed after the model.  When the
    mapping supplies the keyword arguments of SchNet but no [num_tasks],
    the factory raises [KeyError('num_tasks')] after the SchNet
    constructor has run: what the constructor did to the world stays
    done, and no pair is returned. *)
Theorem model_setup_schnet_without_num_tasks {World Opaque : Type}
  (E : Externals World Opaque) (config : dict) (d : dict)
  (kw : list (string * value)) (st : Opaque) (w w1 : World) :
  config !! "model_name" = Some (VStr "SchNet") ->
  config !! "model" = Some (VDict d) ->
  eval_kwargs (VDict d) pl_model.SchNet_kwargs = Ok kw ->
  d !! "num_tasks" = None ->
  init_model E SchNet_class kw w = (Ok st, w1) ->
  pl_model.model_setup E config w = (Raise (KeyError "num_tasks"), w1).
Proof.
  intros Hname Hmc Hkw Htasks Hinit.
  rewrite (model_setup_build E config "SchNet" SchNet_class _ w Hname
             eq_refl Hmc).
  unfold spec_build. cbn [kwargs_of]. rewrite Hkw, bind_lift_Ok.
  rewrite (bind_Ok _ _ _ _ _ (instantiate_Ok E _ _ _ _ _ Hinit)).
  apply eval_kwargs_pairs in Hkw. inversion Hkw as [|nv na kw' l' [_ Hemb] _];
    subst. cbn [snd eval_arg] in Hemb.
  rewrite Hemb, bind_lift_Ok.
  cbn [py.getitem]. unfold py.dict_getitem. rewrite Htasks. reflexivity.
Qed.

Lemma model_setup_schnet_without_num_tasks_witness :
  pl_model.model_setup (Sim.ext true) Scenario.no_tasks_config 0%nat
  = (Raise (KeyError "num_tasks"), 1%nat).
Proof.
  apply (model_setup_schnet_without_num_tasks (Sim.ext true)
           Scenario.no_tasks_config (delete "num_tasks" Sim.schnet_model)
           [("hidden_channels", VInt 128); ("num_filters", VInt 128);
            ("num_interactions", VInt 6); ("num_gaussians", VInt 51);
            ("cutoff", VInt 10); ("readout", VStr "mean");
            ("node_class", VInt 119)] 0%nat 0%nat 1%nat).
  - vm_compute. reflexivity.
  - vm_compute. reflexivity.
  - vm_compute. reflexivity.
  - vm_compute. reflexivity.
  - reflexivity.
Defined.

(** X5: an exception of the model constructor is the exception of the
    factory: on a supported name whose keyword arguments evaluate, when
    the constructor of the class raises, the factory raises the same
    exception in the state the constructor left, and for SchNet no head
    is constructed. *)
Theorem model_setup_constructor_raises {World Opaque : Type}
  (E : Externals World Opaque) (config : dict) (name : string)
  (c : ModelClass) (mc : value) (kw : list (string * value)) (e : exn)
  (w w1 : World) :
  config !! "model_name" = Some (VStr name) ->
  class_of_name name = Some c ->
  config !! "model" = Some mc ->
  eval_kwargs mc (kwargs_of c) = Ok kw ->
  init_model E c kw w = (Raise e, w1) ->
  pl_model.model_setup E config w = (Raise e, w1).
Proof.
  intros Hname Hc Hmc Hkw Hinit.
  rewrite (model_setup_build E config name c _ w Hname Hc Hmc).
  unfold spec_build. rewrite Hkw, bind_lift_Ok.
  apply bind_Raise. unfold instantiate. apply bind_Raise. exact Hinit.
Qed.

Lemma model_setup_constructor_raises_witness :
  pl_model.model_setup (Scenario.rejecting (ValueError "readout"))
    Sim.schnet_config 0%nat
  = (Raise (ValueError "readout"), 1%nat).
Proof.
  apply (model_setup_constructor_raises
           (Scenario.rejecting (ValueError "readout")) Sim.schnet_config
           "SchNet" SchNet_class (VDict Sim.schnet_model)
           [("hidden_channels", VInt 128); ("num_filters", VInt 128);
            ("num_interactions", VInt 6); ("num_gaussians", VInt 51);
            ("cutoff", VInt 10); ("readout", VStr "mean");
            ("node_class", VInt 119)]).
  - vm_compute. reflexivity.
  - reflexivity.
  - vm_compute. reflexivity.
  - vm_compute. reflexivity.
  - reflexivity.
Defined.

(** X6: the head fits the model.  Whenever the factory returns a head,
    its input width is the value the SchNet model received as
    [hidden_channels], the [emb_dim] of the mapping, and its output width
    is the [num_tasks] of the mapping. *)
Theorem model_setup_head_sizes {World Opaque : Type}
  (E : Externals World Opaque) (config : dict) (w w' : World)
  (m : Model Opaque) (head : Linear Opaque) :
  pl_model.model_setup E config w = (Ok (m, Some head), w') ->
  exists mc,
    config !! "model" = Some mc
    /\ py.getitem mc "emb_dim" = Ok (in_features head)
    /\ py.getitem mc "num_tasks" = Ok (out_features head)
    /\ hd_error (model_kwargs m) = Some ("hidden_channels", in_features head).
Proof.
  intros H. apply model_setup_inv in H as (name & c & mc & _ & _ & Hmc & H).
  exists mc. split; [exact Hmc|].
  unfold spec_build in H.
  apply bind_Ok_inv in H as (kw & w1 & Hkw & H).
  apply lift_Ok_inv in Hkw as [Hkw _].
  apply bind_Ok_inv in H as (m0 & w2 & Hm & H).
  unfold instantiate in Hm.
  apply bind_Ok_inv in Hm as (st & w3 & _ & Hm).
  apply ret_inv in Hm as [<- _].
  destruct c; try (apply ret_inv in H as [[=] _]).
  apply bind_Ok_inv in H as (i & w4 & Hi & H).
  apply lift_Ok_inv in Hi as [Hi _].
  apply bind_Ok_inv in H as (o & w5 & Ho & H).
  apply lift_Ok_inv in Ho as [Ho _].
  apply bind_Ok_inv in H as (l & w6 & Hl & H).
  apply ret_inv in H as [[= <- <-] _].
  unfold torch_nn_Linear in Hl.
  apply bind_Ok_inv in Hl as (st' & w7 & _ & Hl).
  apply ret_inv in Hl as [<- _]. cbn [in_features out_features model_kwargs].
  repeat split; auto.
  apply eval_kwargs_pairs in Hkw.
  inversion Hkw as [|[n v] na kw' l' [Hn Hv] _]; subst.
  cbn in Hn, Hv. subst n. rewrite Hi in Hv. injection Hv as <-. reflexivity.
Qed.

Lemma model_setup_head_sizes_witness :
  exists mc,
    Sim.schnet_config !! "model" = Some mc
    /\ py.getitem mc "emb_dim" = Ok (VInt 128)
    /\ py.getitem mc "num_tasks" = Ok (VInt 1)
    /\ hd_error (model_kwargs (molecule_3D_repr (Sim.adapter_of Sim.schnet_config)))
       = Some ("hidden_channels", VInt 128).
Proof.
  apply (model_setup_head_sizes (Sim.ext true) Sim.schnet_config 0%nat 2%nat
           (molecule_3D_repr (Sim.adapter_of Sim.schnet_config))
           {| in_features := VInt 128; out_features := VInt 1;
              linear_state := 1%nat |}).
  vm_compute. reflexivity.
Defined.

(** X7: the model is constructed with the keyword arguments of its call
    and no other: whenever the factory returns, the keyword names of the
    model are those of the constructor call of its class, in the order of
    the source and pairwise distinct, and each argument carries,
    unchanged, the value stored under its key in the [model] mapping, or
    its literal. *)
Theorem model_setup_keyword_arguments {World Opaque : Type}
  (E : Externals World Opaque) (config : dict) (w w' : World)
  (m : Model Opaque) (h : option (Linear Opaque)) :
  pl_model.model_setup E config w = (Ok (m, h), w') ->
  exists mc,
    config !! "model" = Some mc
    /\ map fst (model_kwargs m) = map fst (kwargs_of (model_class m))
    /\ NoDup (map fst (model_kwargs m))
    /\ Forall2 (fun nv na =>
                  fst nv = fst na /\ eval_arg mc (snd na) = Ok (snd nv))
         (model_kwargs m) (kwargs_of (model_class m)).
Proof.
  intros H. apply model_setup_inv in H as (name & c & mc & _ & _ & Hmc & H).
  apply spec_build_returned in H as (<- & Hkw & _).
  exists mc. split; [exact Hmc|].
  pose proof (eval_kwargs_names _ _ _ Hkw) as Hnames.
  repeat split.
  - exact Hnames.
  - rewrite Hnames. apply kwargs_names_NoDup.
  - apply eval_kwargs_pairs, Hkw.
Qed.

Lemma model_setup_keyword_arguments_witness :
  exists mc,
    Sim.dimenet_config 3 !! "model" = Some mc
    /\ map fst (model_kwargs (molecule_3D_repr
                                (Sim.adapter_of (Sim.dimenet_config 3))))
       = map fst (kwargs_of DimeNet_class)
    /\ NoDup (map fst (model_kwargs (molecule_3D_repr
                                       (Sim.adapter_of (Sim.dimenet_config 3)))))
    /\ Forall2 (fun nv na =>
                  fst nv = fst na /\ eval_arg mc (snd na) = Ok (snd nv))
         (model_kwargs (molecule_3D_repr (Sim.adapter_of (Sim.dimenet_config 3))))
         (kwargs_of DimeNet_class).
Proof.
  apply (model_setup_keyword_arguments (Sim.ext true) (Sim.dimenet_config 3)
           0%nat 1%nat
           (molecule_3D_repr (Sim.adapter_of (Sim.dimenet_config 3))) None).
  vm_compute. reflexivity.
Defined.

(** X8: a SphereNet model is always constructed with
    [energy_and_force=False]: whenever the factory returns a model of
    class SphereNet, that is its first keyword argument and the only one
    of that name, whatever the [model] mapping holds under
    [energy_and_force]. *)
Theorem model_setup_spherenet_energy_and_force {World Opaque : Type}
  (E : Externals World Opaque) (config : dict) (w w' : World)
  (m : Model Opaque) (h : option (Linear Opaque)) :
  pl_model.model_setup E config w = (Ok (m, h), w') ->
  model_class m = SphereNet_class ->
  hd_error (model_kwargs m) = Some ("energy_and_force", VBool false)
  /\ (forall v, In ("energy_and_force", v) (model_kwargs m) -> v = VBool false).
Proof.
  intros H Hclass.
  apply model_setup_inv in H as (name & c & mc & _ & _ & _ & H).
  apply spec_build_returned in H as (Hc & Hkw & _).
  rewrite Hclass in Hc. subst c. cbn [kwargs_of] in Hkw.
  destruct m as [cls kw st]. cbn [model_kwargs] in *.
  pose proof (eval_kwargs_names _ _ _ Hkw) as Hnames.
  pose proof (kwargs_names_NoDup SphereNet_class) as Hnodup.
  cbn [kwargs_of] in Hnodup. rewrite <- Hnames in Hnodup.
  apply eval_kwargs_pairs in Hkw.
  inversion Hkw as [|[n v0] na kw' l' [Hn Hv] _ Heq1 Heq2]; subst.
  cbn in Hn, Hv. injection Hv as <-. subst n.
  split; [reflexivity|].
  intros v [Hin|Hin]; [congruence|].
  exfalso. cbn [map fst] in Hnodup. apply NoDup_cons in Hnodup as [Hnot _].
  apply Hnot. apply list_elem_of_In.
  change "energy_and_force" with (fst ("energy_and_force", v)).
  apply in_map, Hin.
Qed.

Lemma model_setup_spherenet_energy_and_force_witness :
  hd_error (model_kwargs (molecule_3D_repr
                            (Sim.adapter_of Scenario.spherenet_config)))
  = Some ("energy_and_force", VBool false)
  /\ (forall v,
        In ("energy_and_force", v)
          (model_kwargs (molecule_3D_repr
                           (Sim.adapter_of Scenario.spherenet_config))) ->
        v = VBool false).
Proof.
  apply (model_setup_spherenet_energy_and_force (Sim.ext true)
           Scenario.spherenet_config 0%nat 1%nat _ None).
  - vm_compute. reflexivity.
  - vm_compute. reflexivity.
Defined.

(** X9: hyperparameters that the selected model does not read have no
    influence: two records with the same supported model name whose
    [model] dictionaries agree on the keys read for that model have the
    same outcome in the same state of the world. *)
Theorem model_setup_ignores_other_keys {World Opaque : Type}
  (E : Externals World Opaque) (c1 c2 : dict) (name : string)
  (c : ModelClass) (d1 d2 : dict) (w : World) :
  c1 !! "model_name" = Some (VStr name) ->
  c2 !! "model_name" = Some (VStr name) ->
  class_of_name name = Some c ->
  c1 !! "model" = Some (VDict d1) ->
  c2 !! "model" = Some (VDict d2) ->
  (forall k, In k (required_keys c) -> d1 !! k = d2 !! k) ->
  pl_model.model_setup E c1 w = pl_model.model_setup E c2 w.
Proof.
  intros Hn1 Hn2 Hc Hm1 Hm2 Hagree.
  rewrite (model_setup_build E c1 name c _ w Hn1 Hc Hm1).
  rewrite (model_setup_build E c2 name c _ w Hn2 Hc Hm2).
  unfold spec_build.
  rewrite (eval_kwargs_agree d1 d2 (kwargs_of c)).
  2:{ intros k Hk. apply Hagree. unfold required_keys.
      apply in_or_app. left. exact Hk. }
  destruct c; try reflexivity.
  cbn [py.getitem]. unfold py.dict_getitem.
  rewrite (Hagree "emb_dim"), (Hagree "num_tasks"); [reflexivity| |].
  - unfold required_keys. apply in_or_app. right. cbn. eauto.
  - unfold required_keys. apply in_or_app. right. cbn. eauto.
Qed.

Lemma model_setup_ignores_other_keys_witness :
  pl_model.model_setup (Sim.ext true) Sim.schnet_config 0%nat
  = pl_model.model_setup (Sim.ext true) Scenario.crowded_config 0%nat.
Proof.
  apply (model_setup_ignores_other_keys (Sim.ext true) Sim.schnet_config
           Scenario.crowded_config "SchNet" SchNet_class Sim.schnet_model
           (<[ "hidden_channels" := VInt 64 ]>
              (<[ "cutoff" := VInt 5 ]> Sim.schnet_model))).
  - vm_compute. reflexivity.
  - vm_compute. reflexivity.
  - reflexivity.
  - vm_compute. reflexivity.
  - vm_compute. reflexivity.
  - intros k Hk. cbn in Hk.
    repeat (destruct Hk as [<-|Hk]; [vm_compute; reflexivity|]).
    destruct Hk.
Defined.

(** ** The adapter: shapes and steps *)
Section AdapterShapes.
Import torch.

Lemma mse_loss_squeezed_column (B : nat) (z y : tensor) :
  shape z = [B; 1%nat] -> well_formed z ->
  shape y = [B] -> well_formed y ->
  mse_loss (squeeze z) y
  = Ok (scalar (mean (zip_with squared_error (data z) (data y)))).
Proof.
  intros Hz Hwz Hy Hwy. destruct z as [sz dz], y as [sy dy].
  cbn [shape data] in *. subst sz sy.
  unfold well_formed in *. cbn [shape data numel foldr] in *.
  destruct (decide (B = 1%nat)) as [->|HB].
  - unfold mse_loss, squeeze. cbn [shape data].
    replace (filter (fun d => d <> 1%nat) [1%nat; 1%nat]) with (@nil nat)
      by reflexivity.
    replace (broadcast_shapes [] [1%nat]) with (Some [1%nat]) by reflexivity.
    unfold expand. cbn [shape data length Nat.sub replicate app].
    rewrite !(expand_data_same [1%nat]) by (cbn; lia). reflexivity.
  - assert (Hf : filter (fun d => d <> 1%nat) [B; 1%nat] = [B])
      by (rewrite filter_cons_True by exact HB; reflexivity).
    apply (mse_loss_same_shape (squeeze (Tensor [B; 1%nat] dz)) (Tensor [B] dy)).
    + unfold squeeze. cbn [shape]. exact Hf.
    + unfold well_formed, squeeze. cbn [shape data]. rewrite Hf.
      cbn [numel foldr]. lia.
    + exact Hwy.
Qed.

Lemma unsqueeze_vector (B : nat) (y : tensor) :
  shape y = [B] -> unsqueeze y 1 = Ok (Tensor [B; 1%nat] (data y)).
Proof. intros Hy. unfold unsqueeze. rewrite Hy. reflexivity. Qed.

Lemma unsqueeze_scalar (y : tensor) :
  shape y = [] -> unsqueeze y 1 = Raise (IndexError "Dimension out of range").
Proof. intros Hy. unfold unsqueeze. rewrite Hy. reflexivity. Qed.

End AdapterShapes.

(** X10: with a head, the loss is computed on what [forward] predicts:
    the loss computation is [forward] on the batch followed by the
    mean-squared error of its result against [y.unsqueeze(1)], in outcome
    and in effect. *)
Theorem loss_of_forward_with_head {World Opaque : Type}
  (E : Externals World Opaque) (self : Pymodel Opaque) (batch : Batch.t)
  (head : Linear Opaque) (w : World) :
  graph_pred_linear self = Some head ->
  pl_model._get_preds_loss_accuracy E self batch w
  = (let* z := pl_model.forward E self batch in
     let* target := lift (torch.unsqueeze (Batch.y batch) 1) in
     lift (torch.mse_loss z target)) w.
Proof.
  intros Hhead.
  unfold pl_model._get_preds_loss_accuracy, pl_model.forward.
  rewrite Hhead. unfold call, call_head, bind, ret.
  destruct (call_model E _ _ _ _ w) as [[z|e] w1]; [|reflexivity].
  destruct (call_linear E head z w1) as [[z'|e] w2]; reflexivity.
Qed.

Lemma loss_of_forward_with_head_witness :
  pl_model._get_preds_loss_accuracy (Sim.ext true)
    (Sim.adapter_of Sim.schnet_config) Sim.two_graphs 2%nat
  = (let* z := pl_model.forward (Sim.ext true)
                 (Sim.adapter_of Sim.schnet_config) Sim.two_graphs in
     let* target := lift (torch.unsqueeze (Batch.y Sim.two_graphs) 1) in
     lift (torch.mse_loss z target)) 2%nat.
Proof.
  apply (loss_of_forward_with_head (Sim.ext true)
           (Sim.adapter_of Sim.schnet_config) Sim.two_graphs
           {| in_features := VInt 128; out_features := VInt 1;
              linear_state := 1%nat |}).
  vm_compute. reflexivity.
Defined.

(** X11: without a head, a model with one output per graph is compared
    graph by graph.  When the model returns a well-formed tensor of shape
    (B, 1) and [y] is a well-formed tensor of shape (B), with B at least
    one, the loss is the mean of the squared differences of the entries,
    also for a batch of one graph, where the squeeze leaves no dimension
    at all. *)
Theorem loss_without_head_single_output {World Opaque : Type}
  (E : Externals World Opaque) (self : Pymodel Opaque) (batch : Batch.t)
  (B : nat) (z : tensor) (w w1 : World) :
  graph_pred_linear self = None ->
  call_model E (molecule_3D_repr self) (Batch.x batch)
    (Batch.positions batch) (Batch.batch batch) w = (Ok z, w1) ->
  (0 < B)%nat ->
  torch.shape z = [B; 1%nat] -> torch.well_formed z ->
  torch.shape (Batch.y batch) = [B] -> torch.well_formed (Batch.y batch) ->
  pl_model._get_preds_loss_accuracy E self batch w
  = (Ok (torch.scalar
           (torch.mean (zip_with torch.squared_error
                          (torch.data z) (torch.data (Batch.y batch))))), w1).
Proof.
  intros Hnone Hz _ Hsz Hwz Hsy Hwy.
  unfold pl_model._get_preds_loss_accuracy. rewrite Hnone.
  unfold call. rewrite (bind_Ok _ _ _ _ _ Hz).
  unfold lift. rewrite (mse_loss_squeezed_column B z _ Hsz Hwz Hsy Hwy).
  reflexivity.
Qed.

Lemma loss_without_head_single_output_witness :
  pl_model._get_preds_loss_accuracy (Sim.ext true)
    (Sim.adapter_of (Sim.dimenet_config 1)) Scenario.one_graph 1%nat
  = (Ok (torch.scalar
           (torch.mean (zip_with torch.squared_error
                          [torch.Finite 0] [torch.Finite 3]))), 1%nat).
Proof.
  apply (loss_without_head_single_output (Sim.ext true)
           (Sim.adapter_of (Sim.dimenet_config 1)) Scenario.one_graph 1%nat
           (torch.tensor_of [1; 1]%nat [0%Q])).
  - vm_compute. reflexivity.
  - vm_compute. reflexivity.
  - lia.
  - reflexivity.
  - reflexivity.
  - reflexivity.
  - reflexivity.
Defined.

(** X12: with a head of one output, the comparison is graph by graph as
    well.  When the head returns a well-formed tensor of shape (B, 1) and
    [y] is a well-formed tensor of shape (B), with B at least one, the
    loss is the mean of the squared differences of the entries. *)
Theorem loss_with_head_single_output {World Opaque : Type}
  (E : Externals World Opaque) (self : Pymodel Opaque) (batch : Batch.t)
  (head : Linear Opaque) (B : nat) (z p : tensor) (w w1 w2 : World) :
  graph_pred_linear self = Some head ->
  call_model E (molecule_3D_repr self) (Batch.x batch)
    (Batch.positions batch) (Batch.batch batch) w = (Ok z, w1) ->
  call_linear E head z w1 = (Ok p, w2) ->
  (0 < B)%nat ->
  torch.shape p = [B; 1%nat] -> torch.well_formed p ->
  torch.shape (Batch.y batch) = [B] -> torch.well_formed (Batch.y batch) ->
  pl_model._get_preds_loss_accuracy E self batch w
  = (Ok (torch.scalar
           (torch.mean (zip_with torch.squared_error
                          (torch.data p) (torch.data (Batch.y batch))))), w2).
Proof.
  intros Hhead Hz Hp _ Hsp Hwp Hsy Hwy.
  unfold pl_model._get_preds_loss_accuracy. rewrite Hhead.
  unfold call, call_head. rewrite (bind_Ok _ _ _ _ _ Hz), (bind_Ok _ _ _ _ _ Hp).
  rewrite (unsqueeze_vector B _ Hsy), bind_lift_Ok.
  unfold lift.
  rewrite (mse_loss_same_shape p (torch.Tensor [B; 1%nat]
                                    (torch.data (Batch.y batch)))).
  - reflexivity.
  - exact Hsp.
  - exact Hwp.
  - unfold torch.well_formed in *. cbn [torch.shape torch.data].
    rewrite Hwy, Hsy. cbn. lia.
Qed.

Lemma loss_with_head_single_output_witness :
  pl_model._get_preds_loss_accuracy (Sim.ext true)
    (Sim.adapter_of Sim.schnet_config) Sim.two_graphs 2%nat
  = (Ok (torch.scalar
           (torch.mean (zip_with torch.squared_error
                          (map torch.Finite [1; 1]%Q)
                          (map torch.Finite [1; 2]%Q)))),
     2%nat).
Proof.
  apply (loss_with_head_single_output (Sim.ext true)
           (Sim.adapter_of Sim.schnet_config) Sim.two_graphs
           {| in_features := VInt 128; out_features := VInt 1;
              linear_state := 1%nat |}
           2%nat (torch.tensor_of [2; 1]%nat [0; 0]%Q)
           (torch.tensor_of [2; 1]%nat [1; 1]%Q) 2%nat 2%nat 2%nat).
  - vm_compute. reflexivity.
  - vm_compute. reflexivity.
  - vm_compute. reflexivity.
  - lia.
  - reflexivity.
  - reflexivity.
  - reflexivity.
  - reflexivity.
Defined.

(** X13: with a head, the target needs a dimension.  On a batch whose
    [y] is 0-dimensional, [y.unsqueeze(1)] raises [IndexError] after the
    model and the head have been called, and no loss is returned. *)
Theorem loss_with_head_scalar_target {World Opaque : Type}
  (E : Externals World Opaque) (self : Pymodel Opaque) (batch : Batch.t)
  (head : Linear Opaque) (z p : tensor) (w w1 w2 : World) :
  graph_pred_linear self = Some head ->
  call_model E (molecule_3D_repr self) (Batch.x batch)
    (Batch.positions batch) (Batch.batch batch) w = (Ok z, w1) ->
  call_linear E head z w1 = (Ok p, w2) ->
  torch.shape (Batch.y batch) = [] ->
  pl_model._get_preds_loss_accuracy E self batch w
  = (Raise (IndexError "Dimension out of range"), w2).
Proof.
  intros Hhead Hz Hp Hsy.
  unfold pl_model._get_preds_loss_accuracy. rewrite Hhead.
  unfold call, call_head. rewrite (bind_Ok _ _ _ _ _ Hz), (bind_Ok _ _ _ _ _ Hp).
  rewrite (unsqueeze_scalar _ Hsy). reflexivity.
Qed.

Lemma loss_with_head_scalar_target_witness :
  pl_model._get_preds_loss_accuracy (Sim.ext true)
    (Sim.adapter_of Sim.schnet_config) Scenario.scalar_target 2%nat
  = (Raise (IndexError "Dimension out of range"), 2%nat).
Proof.
  apply (loss_with_head_scalar_target (Sim.ext true)
           (Sim.adapter_of Sim.schnet_config) Scenario.scalar_target
           {| in_features := VInt 128; out_features := VInt 1;
              linear_state := 1%nat |}
           (torch.tensor_of [1; 1]%nat [0%Q]) (torch.tensor_of [1; 1]%nat [1%Q])
           2%nat 2%nat 2%nat).
  - vm_compute. reflexivity.
  - vm_compute. reflexivity.
  - vm_compute. reflexivity.
  - reflexivity.
Defined.

(** X14: a step returns only a loss it has logged.  Whenever
    [training_step] returns, the value is the loss that the loss
    computation returned, [batch.size(0)] returned, and that loss was
    logged under "train_loss" with that batch size; the same holds for
    [validation_step] and "val_loss". *)
Theorem steps_log_what_they_return {World Opaque : Type}
  (E : Externals World Opaque) (self : Pymodel Opaque) (batch : Batch.t)
  (idx : Z) (w w' : World) (l : tensor) :
  (pl_model.training_step E self batch idx w = (Ok l, w') ->
   exists w1 n w2,
     pl_model._get_preds_loss_accuracy E self batch w = (Ok l, w1)
     /\ batch_size E batch 0 w1 = (Ok n, w2)
     /\ log E "train_loss" l n w2 = (Ok tt, w'))
  /\ (pl_model.validation_step E self batch idx w = (Ok l, w') ->
      exists w1 n w2,
        pl_model._get_preds_loss_accuracy E self batch w = (Ok l, w1)
        /\ batch_size E batch 0 w1 = (Ok n, w2)
        /\ log E "val_loss" l n w2 = (Ok tt, w')).
Proof.
  split; intros H.
  - unfold pl_model.training_step in H.
    apply bind_Ok_inv in H as (l0 & w1 & Hl & H).
    apply bind_Ok_inv in H as (n & w2 & Hn & H).
    apply bind_Ok_inv in H as ([] & w3 & Hlog & H).
    apply ret_inv in H as [<- ->]. exists w1, n, w2. auto.
  - unfold pl_model.validation_step in H.
    apply bind_Ok_inv in H as (l0 & w1 & Hl & H).
    apply bind_Ok_inv in H as (n & w2 & Hn & H).
    apply bind_Ok_inv in H as ([] & w3 & Hlog & H).
    apply ret_inv in H as [<- ->]. exists w1, n, w2. auto.
Qed.

Lemma steps_log_what_they_return_witness :
  exists w1 n w2,
    pl_model._get_preds_loss_accuracy (Sim.ext true)
      (Sim.adapter_of Sim.schnet_config) Sim.two_graphs 2%nat
    = (Ok (torch.scalar (1 # 2)), w1)
    /\ batch_size (Sim.ext true) Sim.two_graphs 0 w1 = (Ok n, w2)
    /\ log (Sim.ext true) "train_loss" (torch.scalar (1 # 2)) n w2
       = (Ok tt, 2%nat).
Proof.
  apply (proj1 (steps_log_what_they_return (Sim.ext true)
                  (Sim.adapter_of Sim.schnet_config) Sim.two_graphs 0
                  2%nat 2%nat (torch.scalar (1 # 2)))).
  vm_compute. reflexivity.
Defined.

(** X15: a step that cannot compute or log its loss returns nothing.
    When the loss computation raises, both steps raise the same
    exception in the same state, without asking for the batch size or
    logging; when [self.log] raises, the step raises that exception
    although the loss was computed. *)
Theorem steps_propagate_exceptions {World Opaque : Type}
  (E : Externals World Opaque) (self : Pymodel Opaque) (batch : Batch.t)
  (idx : Z) (w : World) :
  (forall e w1,
      pl_model._get_preds_loss_accuracy E self batch w = (Raise e, w1) ->
      pl_model.training_step E self batch idx w = (Raise e, w1)
      /\ pl_model.validation_step E self batch idx w = (Raise e, w1))
  /\ (forall l w1 n w2 e w3,
        pl_model._get_preds_loss_accuracy E self batch w = (Ok l, w1) ->
        batch_size E batch 0 w1 = (Ok n, w2) ->
        log E "train_loss" l n w2 = (Raise e, w3) ->
        pl_model.training_step E self batch idx w = (Raise e, w3)).
Proof.
  split.
  - intros e w1 H. unfold pl_model.training_step, pl_model.validation_step.
    rewrite !(bind_Raise _ _ _ _ _ H). split; reflexivity.
  - intros l w1 n w2 e w3 Hl Hn Hlog. unfold pl_model.training_step.
    rewrite (bind_Ok _ _ _ _ _ Hl), (bind_Ok _ _ _ _ _ Hn).
    apply bind_Raise, Hlog.
Qed.

Lemma steps_propagate_exceptions_witness :
  pl_model.training_step (Sim.ext true) (Sim.adapter_of Sim.schnet_config)
    Scenario.scalar_target 0 2%nat
  = (Raise (IndexError "Dimension out of range"), 2%nat)
  /\ pl_model.validation_step (Sim.ext true)
       (Sim.adapter_of Sim.schnet_config) Scenario.scalar_target 0 2%nat
     = (Raise (IndexError "Dimension out of range"), 2%nat).
Proof.
  apply (proj1 (steps_propagate_exceptions (Sim.ext true)
                  (Sim.adapter_of Sim.schnet_config) Scenario.scalar_target
                  0 2%nat)).
  vm_compute. reflexivity.
Defined.

(** X16: a step never returns a negative or a non-scalar loss: whatever
    [training_step] or [validation_step] returns, on any adapter and any
    batch, is a 0-dimensional tensor whose one entry is a number that is
    not negative, or NaN, as the mean over a batch without an entry is. *)
Theorem steps_never_return_negative {World Opaque : Type}
  (E : Externals World Opaque) (self : Pymodel Opaque) (batch : Batch.t)
  (idx : Z) (w w' : World) (l : tensor) :
  pl_model.training_step E self batch idx w = (Ok l, w')
  \/ pl_model.validation_step E self batch idx w = (Ok l, w') ->
  exists v,
    l = torch.scalar v
    /\ (v = torch.NaN \/ exists q : Q, v = torch.Finite q /\ (0 <= q)%Q).
Proof.
  intros [H|H].
  - apply training_step_returned in H as [w1 H].
    apply (get_preds_loss_nan_or_nonnegative E self batch w l w1 H).
  - apply validation_step_returned in H as [w1 H].
    apply (get_preds_loss_nan_or_nonnegative E self batch w l w1 H).
Qed.

Lemma steps_never_return_negative_witness :
  exists v,
    torch.scalar (5 # 2) = torch.scalar v
    /\ (v = torch.NaN \/ exists q : Q, v = torch.Finite q /\ (0 <= q)%Q).
Proof.
  apply (steps_never_return_negative (Sim.ext true)
           (Sim.adapter_of (Sim.dimenet_config 1)) Sim.two_graphs 0
           1%nat 1%nat (torch.scalar (5 # 2))).
  left. vm_compute. reflexivity.
Defined.

(** ** The driver: configuration, order of steps *)
Section DriverFacts.
Context {World Opaque : Type} (E : Externals World Opaque).

Lemma model_setup_invalid_name (config : dict) (name : string) (w : World) :
  config !! "model_name" = Some (VStr name) ->
  ~ In name supported_names ->
  is_Some (config !! "model") ->
  train_models.model_setup E config w
  = (Raise (ValueError "Invalid model name"), w).
Proof.
  intros Hname Hnot [mc Hmc].
  assert (Hc : class_of_name name = None).
  { destruct (class_of_name name) eqn:Hc; [|reflexivity].
    exfalso. apply Hnot, class_of_name_supported. rewrite Hc. eauto. }
  change (train_models.model_setup E config w)
    with (pl_model.model_setup E config w).
  rewrite model_setup_dispatch. unfold spec_model_setup, py.dict_getitem.
  rewrite Hmc, Hname, !bind_lift_Ok, Hc. reflexivity.
Qed.

End DriverFacts.

(** X17: the configuration that [main] uses after its setup is the one
    [read_config] returned with one entry changed: [device] is set,
    replacing any value read, to the string "cuda" when CUDA is
    available and to the device object for "cpu" otherwise; every other
    key is as read, and a seed was present. *)
Theorem main_setup_sets_device {World Opaque : Type}
  (E : Externals World Opaque) (config_dir : string) (w w1 : World)
  (start : float) (config : dict) (loaders : Opaque * Opaque)
  (built : Model Opaque * option (Linear Opaque)) :
  train_models.main_setup E config_dir w
  = (Ok (start, config, loaders, built), w1) ->
  exists config0 available wa wb wc wd,
    read_config E config_dir wa = (Ok config0, wb)
    /\ torch_cuda_is_available E wc = (Ok available, wd)
    /\ config
       = <[ "device" := if available then VStr "cuda" else VDevice "cpu" ]>
           config0
    /\ config !! "device"
       = Some (if available then VStr "cuda" else VDevice "cpu")
    /\ (forall k, k <> "device" -> config !! k = config0 !! k)
    /\ is_Some (config0 !! "seed").
Proof.
  unfold train_models.main_setup. intros H.
  apply bind_Ok_inv in H as (start0 & w2 & _ & H).
  apply bind_Ok_inv in H as (config0 & w3 & Hread & H).
  apply bind_Ok_inv in H as (seed & w4 & Hseed & H).
  apply lift_Ok_inv in Hseed as [Hseed _].
  apply bind_Ok_inv in H as (u1 & w5 & _ & H).
  apply bind_Ok_inv in H as (seed' & w6 & _ & H).
  apply bind_Ok_inv in H as (u2 & w7 & _ & H).
  apply bind_Ok_inv in H as (available & w8 & Hav & H).
  cbv zeta in H.
  apply bind_Ok_inv in H as (dataset & w9 & _ & H).
  apply bind_Ok_inv in H as ([tl vl] & w10 & _ & H).
  apply bind_Ok_inv in H as ([m0 gpl] & w11 & _ & H).
  apply bind_Ok_inv in H as (name & w12 & _ & H).
  apply bind_Ok_inv in H as (u3 & w13 & _ & H).
  apply bind_Ok_inv in H as (model_path & w14 & _ & H).
  apply bind_Ok_inv in H as (model' & w15 & _ & H).
  apply bind_Ok_inv in H as (running_dir & w16 & _ & H).
  apply bind_Ok_inv in H as (u4 & w17 & _ & H).
  apply bind_Ok_inv in H as (u5 & w18 & _ & H).
  apply ret_inv in H as [[= <- <- <- <-] _].
  exists config0, available, w2, w3, w7, w8.
  repeat split; auto.
  - apply lookup_insert_eq.
  - intros k Hk. apply lookup_insert_ne. congruence.
  - unfold py.dict_getitem in Hseed.
    destruct (config0 !! "seed"); [eauto | discriminate].
Qed.

Lemma main_setup_sets_device_witness :
  exists config0 available wa wb wc wd,
    read_config (Sim.ext true) "fresh" wa = (Ok config0, wb)
    /\ torch_cuda_is_available (Sim.ext true) wc = (Ok available, wd)
    /\ <[ "device" := VDevice "cpu" ]> Sim.schnet_config
       = <[ "device" := if available then VStr "cuda" else VDevice "cpu" ]>
           config0
    /\ (<[ "device" := VDevice "cpu" ]> Sim.schnet_config) !! "device"
       = Some (if available then VStr "cuda" else VDevice "cpu")
    /\ (forall k, k <> "device" ->
                  (<[ "device" := VDevice "cpu" ]> Sim.schnet_config) !! k
                  = config0 !! k)
    /\ is_Some (config0 !! "seed").
Proof.
  apply (main_setup_sets_device (Sim.ext true) "fresh" 0%nat 2%nat 0%float
           (<[ "device" := VDevice "cpu" ]> Sim.schnet_config)
           (0%nat, 0%nat)
           (molecule_3D_repr (Sim.adapter_of Sim.schnet_config),
            graph_pred_linear (Sim.adapter_of Sim.schnet_config))).
  vm_compute. reflexivity.
Defined.

(** X18: when the checkpoint exists, what the factory built is not used:
    with the path configured under [pl_model_chkpt] existing, the choice
    of the adapter has the same outcome for any two models and heads it
    is given, the restored adapter. *)
Theorem main_adapter_resume_ignores_model {World Opaque : Type}
  (E : Externals World Opaque) (config : dict) (path : value)
  (w w1 : World) (m1 m2 : Model Opaque) (h1 h2 : option (Linear Opaque)) :
  config !! "pl_model_chkpt" = Some path ->
  os_path_exists E path w = (Ok true, w1) ->
  train_models.main_adapter E config m1 h1 w
  = train_models.main_adapter E config m2 h2 w
  /\ train_models.main_adapter E config m1 h1 w
     = load_from_checkpoint E path w1.
Proof.
  intros Hpath Hfound.
  unfold train_models.main_adapter, py.dict_getitem.
  rewrite Hpath, !bind_lift_Ok, !(bind_Ok _ _ _ _ _ Hfound).
  split; reflexivity.
Qed.

Lemma main_adapter_resume_ignores_model_witness :
  train_models.main_adapter (Sim.ext true) Sim.resume_config
    (molecule_3D_repr (Sim.adapter_of Sim.schnet_config))
    (graph_pred_linear (Sim.adapter_of Sim.schnet_config)) 2%nat
  = train_models.main_adapter (Sim.ext true) Sim.resume_config
      (molecule_3D_repr (Sim.adapter_of (Sim.dimenet_config 1))) None 2%nat
  /\ train_models.main_adapter (Sim.ext true) Sim.resume_config
       (molecule_3D_repr (Sim.adapter_of Sim.schnet_config))
       (graph_pred_linear (Sim.adapter_of Sim.schnet_config)) 2%nat
     = load_from_checkpoint (Sim.ext true) (VStr "last.ckpt") 2%nat.
Proof.
  apply (main_adapter_resume_ignores_model (Sim.ext true) Sim.resume_config
           (VStr "last.ckpt") 2%nat 2%nat).
  - vm_compute. reflexivity.
  - vm_compute. reflexivity.
Defined.

(** X19: [main] validates the model name only after the data is loaded.
    When the configuration is read, seeded, the data loaded and split,
    and the model name is a string outside the five supported ones (with
    a [model] entry present), [main] raises
    [ValueError("Invalid model name")] in the state that
    [train_val_split] left: the loading has happened, and nothing after
    the factory has. *)
Theorem main_invalid_name_after_loading {World Opaque : Type}
  (E : Externals World Opaque) (config_dir : string) (name : string)
  (config0 : dict) (seed : value) (available : bool) (start : float)
  (dataset train_loader val_loader : Opaque)
  (w w1 w2 w3 w4 w5 w6 w7 : World) :
  let config :=
    <[ "device" := if available then VStr "cuda" else VDevice "cpu" ]> config0 in
  time_time E w = (Ok start, w1) ->
  read_config E config_dir w1 = (Ok config0, w2) ->
  config0 !! "seed" = Some seed ->
  np_random_seed E seed w2 = (Ok tt, w3) ->
  torch_cuda_manual_seed_all E seed w3 = (Ok tt, w4) ->
  torch_cuda_is_available E w4 = (Ok available, w5) ->
  load_data E config w5 = (Ok dataset, w6) ->
  train_val_split E dataset config w6 = (Ok (train_loader, val_loader), w7) ->
  config0 !! "model_name" = Some (VStr name) ->
  ~ In name supported_names ->
  is_Some (config0 !! "model") ->
  train_models.main E config_dir w
  = (Raise (ValueError "Invalid model name"), w7).
Proof.
  intros config Ht Hread Hseed Hnp Hcuda Hav Hload Hsplit Hname Hnot Hmodel.
  unfold train_models.main. apply bind_Raise.
  unfold train_models.main_setup.
  rewrite (bind_Ok _ _ _ _ _ Ht), (bind_Ok _ _ _ _ _ Hread).
  unfold py.dict_getitem at 1 2. rewrite Hseed, bind_lift_Ok.
  rewrite (bind_Ok _ _ _ _ _ Hnp), bind_lift_Ok.
  rewrite (bind_Ok _ _ _ _ _ Hcuda), (bind_Ok _ _ _ _ _ Hav).
  cbv zeta. fold config.
  rewrite (bind_Ok _ _ _ _ _ Hload), (bind_Ok _ _ _ _ _ Hsplit).
  apply bind_Raise.
  apply (model_setup_invalid_name E config name w7).
  - unfold config. rewrite lookup_insert_ne by discriminate. exact Hname.
  - exact Hnot.
  - unfold config. rewrite lookup_insert_ne by discriminate. exact Hmodel.
Qed.

Lemma main_invalid_name_after_loading_witness :
  train_models.main (Scenario.reading Scenario.unknown_driver_config) "" 0%nat
  = (Raise (ValueError "Invalid model name"), 0%nat).
Proof.
  apply (main_invalid_name_after_loading
           (Scenario.reading Scenario.unknown_driver_config) "" "PaiNN"
           Scenario.unknown_driver_config (VInt 42) false 0%float
           0%nat 0%nat 0%nat 0%nat 0%nat 0%nat 0%nat 0%nat 0%nat 0%nat 0%nat).
  - reflexivity.
  - reflexivity.
  - vm_compute. reflexivity.
  - reflexivity.
  - reflexivity.
  - reflexivity.
  - reflexivity.
  - reflexivity.
  - vm_compute. reflexivity.
  - cbn. intros [H|[H|[H|[H|[H|[]]]]]]; discriminate H.
  - vm_compute. eauto.
Defined.

(** X20: a configuration without a seed stops [main] at once: when
    [read_config] returns a record with no [seed], [main] raises
    [KeyError('seed')] in the state [read_config] left, before any
    generator is seeded and before any data is loaded. *)
Theorem main_missing_seed {World Opaque : Type}
  (E : Externals World Opaque) (config_dir : string) (config0 : dict)
  (start : float) (w w1 w2 : World) :
  time_time E w = (Ok start, w1) ->
  read_config E config_dir w1 = (Ok config0, w2) ->
  config0 !! "seed" = None ->
  train_models.main E config_dir w = (Raise (KeyError "seed"), w2).
Proof.
  intros Ht Hread Hseed.
  unfold train_models.main. apply bind_Raise.
  unfold train_models.main_setup.
  rewrite (bind_Ok _ _ _ _ _ Ht), (bind_Ok _ _ _ _ _ Hread).
  unfold py.dict_getitem at 1. rewrite Hseed. reflexivity.
Qed.

Lemma main_missing_seed_witness :
  train_models.main (Scenario.reading Scenario.no_seed_config) "" 0%nat
  = (Raise (KeyError "seed"), 0%nat).
Proof.
  apply (main_missing_seed (Scenario.reading Scenario.no_seed_config) ""
           Scenario.no_seed_config 0%float 0%nat 0%nat 0%nat).
  - reflexivity.
  - reflexivity.
  - vm_compute. reflexivity.
Defined.

(** X21: a run of [main] that returns has fitted one trainer.  The
    trainer was constructed with the logger of the run, the configured
    [max_epochs], validation after every epoch, logging at every step and
    the one checkpoint callback; the callback writes to the directory
    named as the run, [config["name"]], and monitors "val_loss" for its
    minimum; and [fit] received the chosen adapter with the loaders that
    [train_val_split] returned, the training loader first. *)
Theorem main_fits_one_trainer {World Opaque : Type}
  (E : Externals World Opaque) (config_dir : string) (w w' : World) :
  train_models.main E config_dir w = (Ok tt, w') ->
  exists config dataset train_loader val_loader model head pymodel
         project name max_epochs logger callback trainer
         wa wb wc wd we wf wg wh wi wj wk wl,
    train_val_split E dataset config wa = (Ok (train_loader, val_loader), wb)
    /\ train_models.main_adapter E config model head wc = (Ok pymodel, wd)
    /\ config !! "name" = Some name
    /\ config !! "max_epochs" = Some max_epochs
    /\ WandbLogger E (VStr "all") project name we = (Ok logger, wf)
    /\ ModelCheckpoint E name (VStr "{epoch}-{val_loss:.2f}-{other_metric:.2f}")
         (VStr "val_loss") (VStr "min") wg = (Ok callback, wh)
    /\ Trainer E logger max_epochs (VFloat 1%float) (VInt 1) [callback] wi
       = (Ok trainer, wj)
    /\ fit E trainer pymodel train_loader val_loader wk = (Ok tt, wl).
Proof.
  unfold train_models.main. intros H.
  apply bind_Ok_inv in H as ([[[start config] [tl vl]] [model head]] & w1 & Hs & H).
  apply bind_Ok_inv in H as (pm & w2 & Hadapter & H).
  assert (Hsplit : exists dataset wa wb,
             train_val_split E dataset config wa = (Ok (tl, vl), wb)).
  { unfold train_models.main_setup in Hs.
    apply bind_Ok_inv in Hs as (start0 & v2 & _ & Hs).
    apply bind_Ok_inv in Hs as (config0 & v3 & _ & Hs).
    apply bind_Ok_inv in Hs as (seed & v4 & _ & Hs).
    apply bind_Ok_inv in Hs as (u1 & v5 & _ & Hs).
    apply bind_Ok_inv in Hs as (seed' & v6 & _ & Hs).
    apply bind_Ok_inv in Hs as (u2 & v7 & _ & Hs).
    apply bind_Ok_inv in Hs as (available & v8 & _ & Hs).
    cbv zeta in Hs.
    apply bind_Ok_inv in Hs as (dataset & v9 & _ & Hs).
    apply bind_Ok_inv in Hs as ([tl0 vl0] & v10 & Hsplit & Hs).
    apply bind_Ok_inv in Hs as ([m0 gpl] & v11 & _ & Hs).
    apply bind_Ok_inv in Hs as (nm & v12 & _ & Hs).
    apply bind_Ok_inv in Hs as (u3 & v13 & _ & Hs).
    apply bind_Ok_inv in Hs as (model_path & v14 & _ & Hs).
    apply bind_Ok_inv in Hs as (model' & v15 & _ & Hs).
    apply bind_Ok_inv in Hs as (running_dir & v16 & _ & Hs).
    apply bind_Ok_inv in Hs as (u4 & v17 & _ & Hs).
    apply bind_Ok_inv in Hs as (u5 & v18 & _ & Hs).
    apply ret_inv in Hs as [[= <- <- <- <- <- <-] _].
    exists dataset, v9, v10. exact Hsplit. }
  destruct Hsplit as (dataset & wa & wb & Hsplit).
  unfold train_models.main_train in H.
  apply bind_Ok_inv in H as (model_name & w3 & _ & H).
  apply bind_Ok_inv in H as (target_name & w4 & _ & H).
  cbv zeta in H.
  apply bind_Ok_inv in H as (name & w5 & Hname & H).
  apply lift_Ok_inv in Hname as [Hname ->].
  apply bind_Ok_inv in H as (logger & w6 & Hlogger & H).
  apply bind_Ok_inv in H as (u6 & w7 & _ & H).
  apply bind_Ok_inv in H as (dirpath & w8 & Hdir & H).
  apply lift_Ok_inv in Hdir as [Hdir ->].
  apply bind_Ok_inv in H as (callback & w9 & Hcb & H).
  apply bind_Ok_inv in H as (max_epochs & w10 & Hmax & H).
  apply lift_Ok_inv in Hmax as [Hmax ->].
  apply bind_Ok_inv in H as (trainer & w11 & Htrainer & H).
  apply bind_Ok_inv in H as ([] & w12 & Hfit & H).
  rewrite Hname in Hdir. injection Hdir as <-.
  unfold py.dict_getitem in Hname, Hmax.
  destruct (config !! "name") as [name'|] eqn:Hn; [|discriminate].
  injection Hname as ->.
  destruct (config !! "max_epochs") as [me|] eqn:Hm; [|discriminate].
  injection Hmax as ->.
  eexists config, dataset, tl, vl, model, head, pm, _, name, max_epochs,
    logger, callback, trainer.
  eexists wa, wb, w1, w2, w4, w6, w7, w9, w9, w11, w11, w12.
  repeat split; eauto.
Qed.

Lemma main_fits_one_trainer_witness :
  exists config dataset train_loader val_loader model head pymodel
         project name max_epochs logger callback trainer
         wa wb wc wd we wf wg wh wi wj wk wl,
    train_val_split (Sim.ext true) dataset config wa
    = (Ok (train_loader, val_loader), wb)
    /\ train_models.main_adapter (Sim.ext true) config model head wc
       = (Ok pymodel, wd)
    /\ config !! "name" = Some name
    /\ config !! "max_epochs" = Some max_epochs
    /\ WandbLogger (Sim.ext true) (VStr "all") project name we = (Ok logger, wf)
    /\ ModelCheckpoint (Sim.ext true) name
         (VStr "{epoch}-{val_loss:.2f}-{other_metric:.2f}")
         (VStr "val_loss") (VStr "min") wg = (Ok callback, wh)
    /\ Trainer (Sim.ext true) logger max_epochs (VFloat 1%float) (VInt 1)
         [callback] wi = (Ok trainer, wj)
    /\ fit (Sim.ext true) trainer pymodel train_loader val_loader wk
       = (Ok tt, wl).
Proof.
  apply (main_fits_one_trainer (Sim.ext true) "fresh" 0%nat 2%nat).
  vm_compute. reflexivity.
Defined.
